(** * jpterm: the JMESPath text terminal

    A shallow embedding of [jpterm.py]: the colour table of
    [ConsoleJSONFormatter], the edit handler and key handler of
    [JMESPathDisplay], the output written when the terminal exits, the
    three ways the input document is obtained, and [main].

    Python objects are mutable; every method is a function from the
    object's state to its new state, paired with the way the call ended
    (a value, or an exception that propagates).  The operating system is
    a record [World]: descriptor table, pending pipe data, file system,
    the two output streams, and a ghost log of the system calls made. *)

From Stdlib Require Import ZArith Ascii String List Bool Lia.
From stdpp Require Import gmap strings list pretty.
Import ListNotations.

Set Warnings "-register-all".

Local Open Scope string_scope.
Local Open Scope Z_scope.

(** ** Python values *)

(** A Python value of the kind JSON describes, in which objects of
    another kind ([JOpaque]) may occur.  Python has a single [None]: it
    is both JSON's null and the "nothing yet" of [last_result], so
    [JNull] plays both parts here as well.  A float [JFloat m e] is the
    double [m * 2^e].  Objects keep their key order
    ([collections.OrderedDict]). *)
Inductive pyvalue (O : Type) : Type :=
| JNull
| JBool (b : bool)
| JInt (n : Z)
| JFloat (m e : Z)
| JStr (s : string)
| JArr (items : list (pyvalue O))
| JObj (fields : list (string * pyvalue O))
| JOpaque (o : O).
Arguments JNull {O}.
Arguments JBool {O} b.
Arguments JInt {O} n.
Arguments JFloat {O} m e.
Arguments JStr {O} s.
Arguments JArr {O} items.
Arguments JObj {O} fields.
Arguments JOpaque {O} o.

(** What [json.load] returns, and the sample: JSON data and nothing
    else. *)
Definition json : Type := pyvalue Empty_set.

(** jmespath's [_Expression], the value of an expression reference
    such as [&a]; [json.dumps] does not know the class. *)
Record Expression : Type := mkExpression { expression_text : string }.

(** What a search returns: JSON data in which [_Expression] objects
    may occur. *)
Definition pyobj : Type := pyvalue Expression.

(** [x is None] *)
Definition is_None {O : Type} (x : pyvalue O) : bool :=
  match x with JNull => true | _ => false end.

(** A document seen as a search result. *)
Fixpoint of_json (j : json) : pyobj :=
  match j with
  | JNull => JNull
  | JBool b => JBool b
  | JInt n => JInt n
  | JFloat m e => JFloat m e
  | JStr s => JStr s
  | JArr items => JArr (map of_json items)
  | JObj fields => JObj (map (fun kv => (fst kv, of_json (snd kv))) fields)
  | JOpaque o => match o with end
  end.

(** The JSON data of a value, when no [_Expression] occurs in it: what
    [json.dumps] can serialize. *)
Fixpoint to_json (v : pyobj) : option json :=
  match v with
  | JNull => Some JNull
  | JBool b => Some (JBool b)
  | JInt n => Some (JInt n)
  | JFloat m e => Some (JFloat m e)
  | JStr s => Some (JStr s)
  | JArr items =>
      option_map JArr
        ((fix all (l : list pyobj) : option (list json) :=
            match l with
            | [] => Some []
            | x :: l' =>
                match to_json x, all l' with
                | Some y, Some ys => Some (y :: ys)
                | _, _ => None
                end
            end) items)
  | JObj fields =>
      option_map JObj
        ((fix all (l : list (string * pyobj)) : option (list (string * json)) :=
            match l with
            | [] => Some []
            | (k, x) :: l' =>
                match to_json x, all l' with
                | Some y, Some ys => Some ((k, y) :: ys)
                | _, _ => None
                end
            end) fields)
  | JOpaque _ => None
  end.

(** ** Exceptions *)

(** The exception classes the program can meet, with Python's class
    hierarchy. *)
Inductive exc_class : Type :=
| BaseException | Exception | KeyboardInterrupt
| ValueError | JSONDecodeError | UnicodeDecodeError
| JMESPathError | ParseError | JMESPathTypeError
| OSError | FileNotFoundError | PermissionError
| IndexError | TypeError | ExitMainLoop.

Definition exc_base (c : exc_class) : option exc_class :=
  match c with
  | BaseException => None
  | Exception | KeyboardInterrupt => Some BaseException
  | ValueError | OSError | IndexError | TypeError | ExitMainLoop =>
      Some Exception
  | JSONDecodeError | UnicodeDecodeError | JMESPathError => Some ValueError
  | ParseError | JMESPathTypeError => Some JMESPathError
  | FileNotFoundError | PermissionError => Some OSError
  end.

Definition exc_class_eqb (c d : exc_class) : bool :=
  match c, d with
  | BaseException, BaseException | Exception, Exception
  | KeyboardInterrupt, KeyboardInterrupt | ValueError, ValueError
  | JSONDecodeError, JSONDecodeError | UnicodeDecodeError, UnicodeDecodeError
  | JMESPathError, JMESPathError | ParseError, ParseError
  | JMESPathTypeError, JMESPathTypeError | OSError, OSError
  | FileNotFoundError, FileNotFoundError | PermissionError, PermissionError
  | IndexError, IndexError | TypeError, TypeError
  | ExitMainLoop, ExitMainLoop => true
  | _, _ => false
  end.

(** [issubclass c d]; the hierarchy above is four levels deep. *)
Fixpoint issubclass_upto (depth : nat) (c d : exc_class) : bool :=
  exc_class_eqb c d ||
  match depth, exc_base c with
  | S k, Some b => issubclass_upto k b d
  | _, _ => false
  end.

Definition issubclass : exc_class -> exc_class -> bool := issubclass_upto 4.

(** A raised exception: its class and [str(e)]. *)
Record exn : Type := Exn { exn_class : exc_class; exn_str : string }.

(** [isinstance(e, cls)], what an [except cls] clause tests. *)
Definition isinstance (e : exn) (cls : exc_class) : bool :=
  issubclass (exn_class e) cls.

(** How a call ends. *)
Inductive result (A : Type) : Type :=
| Ok (a : A)
| Raise (e : exn).
Arguments Ok {A} a.
Arguments Raise {A} e.

(** ** ConsoleJSONFormatter *)

(** A display attribute as [urwid.Text] markup receives it.  Python
    does not type the first component of a markup pair, so a tuple is a
    possible value too. *)
Inductive attr : Type :=
| AttrSpec (fg bg : string)
| PyTuple (items : list attr).

Definition is_AttrSpec (a : attr) : bool :=
  match a with AttrSpec _ _ => true | PyTuple _ => false end.

Definition TOKEN_TYPES : gmap string attr :=
  list_to_map
    [ ("Token.Literal.String.Double", AttrSpec "dark green" "default");
      ("Token.Literal.Number.Integer", AttrSpec "dark blue" "default");
      ("Token.Literal.Number.Float", AttrSpec "dark blue" "default");
      ("Token.Keyword.Constant", AttrSpec "light blue" "default");
      ("Token.Punctuation", AttrSpec "light blue" "default");
      ("Token.Text", AttrSpec "white" "default");
      ("Token.Name.Tag", AttrSpec "white" "default") ].

(** The source line ends in a comma,
      [DEFAULT_COLOR = urwid.AttrSpec('light blue', 'default'),]
    so the class attribute is a one-element tuple. *)
Definition DEFAULT_COLOR : attr :=
  PyTuple [AttrSpec "light blue" "default"].

(** A lexer token: [str(token_type)] and the token's text. *)
Definition token : Type := string * string.

(** [generate_colors]: the generator, run to its end. *)
Definition generate_colors (tokens : list token) : list (attr * string) :=
  let types := TOKEN_TYPES in
  let default_ := DEFAULT_COLOR in
  map (fun '(token_type, token_string) =>
         (default default_ (types !! token_type), token_string))
      tokens.

(** ** The operating system *)

(** What an open descriptor refers to: a pipe (or any other redirected
    stream that is no terminal), or the terminal. *)
Inductive ofd : Type := OPipe | OTty.

(** Ghost log of the system calls that succeeded, oldest first. *)
Inductive syscall : Type :=
| SysDup (fd newfd : nat)
| SysClose (fd : nat)
| SysOpenTty (newfd : nat)           (* os.open(os.ctermid(), O_RDONLY) *)
| SysRead (fd : nat) (bs : string)   (* os.read(fd, n) returned bs *)
| SysOpenFile (path mode : string).  (* open(path, mode) *)

Record World : Type := mkWorld {
  fdtable : list (option ofd);   (* index: descriptor number *)
  pipe_in : list string;         (* what the next reads of the pipe return;
                                    once used up, reads return b'' *)
  tty_in : list string;          (* the same for the terminal *)
  ctty : bool;                   (* the process has a controlling terminal *)
  files : gmap string string;    (* path to content *)
  unwritable : gset string;      (* paths that cannot be opened for writing *)
  stdout : string;
  stderr : string;
  syslog : list syscall
}.

Definition set_fdtable (v : list (option ofd)) (w : World) : World :=
  mkWorld v (pipe_in w) (tty_in w) (ctty w) (files w) (unwritable w)
          (stdout w) (stderr w) (syslog w).
Definition set_pipe_in (v : list string) (w : World) : World :=
  mkWorld (fdtable w) v (tty_in w) (ctty w) (files w) (unwritable w)
          (stdout w) (stderr w) (syslog w).
Definition set_tty_in (v : list string) (w : World) : World :=
  mkWorld (fdtable w) (pipe_in w) v (ctty w) (files w) (unwritable w)
          (stdout w) (stderr w) (syslog w).
Definition set_files (v : gmap string string) (w : World) : World :=
  mkWorld (fdtable w) (pipe_in w) (tty_in w) (ctty w) v (unwritable w)
          (stdout w) (stderr w) (syslog w).
Definition set_stdout (v : string) (w : World) : World :=
  mkWorld (fdtable w) (pipe_in w) (tty_in w) (ctty w) (files w) (unwritable w)
          v (stderr w) (syslog w).
Definition set_stderr (v : string) (w : World) : World :=
  mkWorld (fdtable w) (pipe_in w) (tty_in w) (ctty w) (files w) (unwritable w)
          (stdout w) v (syslog w).
Definition log (c : syscall) (w : World) : World :=
  mkWorld (fdtable w) (pipe_in w) (tty_in w) (ctty w) (files w) (unwritable w)
          (stdout w) (stderr w) (syslog w ++ [c]).

(** Code that runs against the world and may raise. *)
Definition io (A : Type) : Type := World -> result A * World.

Definition ret {A} (a : A) : io A := fun w => (Ok a, w).
Definition raise {A} (e : exn) : io A := fun w => (Raise e, w).
Definition bind {A B} (m : io A) (k : A -> io B) : io B :=
  fun w => match m w with
           | (Ok a, w') => k a w'
           | (Raise e, w') => (Raise e, w')
           end.
Definition lift {A} (r : result A) : io A := fun w => (r, w).

Declare Scope io_scope.
Delimit Scope io_scope with io.
Notation "x <- m ;; k" := (bind m (fun x => k))
  (at level 100, m at next level, right associativity) : io_scope.
Notation "m ;; k" := (bind m (fun _ => k))
  (at level 100, right associativity) : io_scope.

Definition nl : string := String (Ascii.ascii_of_nat 10) EmptyString.

Definition EBADF : exn := Exn OSError "[Errno 9] Bad file descriptor".

(** The lowest descriptor number not in use. *)
Fixpoint lowest_free (t : list (option ofd)) : nat :=
  match t with
  | Some _ :: t' => S (lowest_free t')
  | _ => O
  end.

Definition install (f : ofd) (t : list (option ofd)) : list (option ofd) :=
  let n := lowest_free t in
  if (n <? length t)%nat then <[n := Some f]> t else t ++ [Some f].

Definition sys_stdin_fileno : nat := 0%nat.

Definition os_isatty (fd : nat) : io bool := fun w =>
  match fdtable w !! fd with
  | Some (Some OTty) => (Ok true, w)
  | _ => (Ok false, w)
  end.

Definition os_dup (fd : nat) : io nat := fun w =>
  match fdtable w !! fd with
  | Some (Some f) =>
      let newfd := lowest_free (fdtable w) in
      (Ok newfd, log (SysDup fd newfd) (set_fdtable (install f (fdtable w)) w))
  | _ => (Raise EBADF, w)
  end.

Definition os_close (fd : nat) : io unit := fun w =>
  match fdtable w !! fd with
  | Some (Some _) =>
      (Ok tt, log (SysClose fd) (set_fdtable (<[fd := None]> (fdtable w)) w))
  | _ => (Raise EBADF, w)
  end.

(** [os.open(os.ctermid(), os.O_RDONLY)] *)
Definition os_open_ctermid : io nat := fun w =>
  if ctty w then
    let newfd := lowest_free (fdtable w) in
    (Ok newfd, log (SysOpenTty newfd) (set_fdtable (install OTty (fdtable w)) w))
  else (Raise (Exn OSError "[Errno 6] No such device or address: '/dev/tty'"), w).

(** [os.read(fd, n)]: the next piece the kernel delivers; the pieces in
    [pipe_in] and [tty_in] are what reads of that size return. *)
Definition os_read (fd : nat) : io string := fun w =>
  match fdtable w !! fd with
  | Some (Some OPipe) =>
      match pipe_in w with
      | [] => (Ok "", log (SysRead fd "") w)
      | bs :: rest => (Ok bs, log (SysRead fd bs) (set_pipe_in rest w))
      end
  | Some (Some OTty) =>
      match tty_in w with
      | [] => (Ok "", log (SysRead fd "") w)
      | bs :: rest => (Ok bs, log (SysRead fd bs) (set_tty_in rest w))
      end
  | _ => (Raise EBADF, w)
  end.

(** The pieces still to come on a descriptor. *)
Definition pending (fd : nat) (w : World) : list string :=
  match fdtable w !! fd with
  | Some (Some OPipe) => pipe_in w
  | Some (Some OTty) => tty_in w
  | _ => []
  end.

(** [open(path)] and reading it whole. *)
Definition read_file (path : string) : io string := fun w =>
  match files w !! path with
  | Some content => (Ok content, log (SysOpenFile path "r") w)
  | None =>
      (Raise (Exn FileNotFoundError
                  ("[Errno 2] No such file or directory: '" ++ path ++ "'")), w)
  end.

(** [with open(path, 'w') as f: f.write(text)]: the file is truncated,
    then holds [text].  [unwritable] lists the paths whose [open] fails;
    a write that fails once the file is open is not part of the model. *)
Definition write_file (path text : string) : io unit := fun w =>
  if decide (path ∈ unwritable w) then
    (Raise (Exn PermissionError
                ("[Errno 13] Permission denied: '" ++ path ++ "'")), w)
  else (Ok tt, log (SysOpenFile path "w") (set_files (<[path := text]> (files w)) w)).

Definition sys_stdout_write (text : string) : io unit := fun w =>
  (Ok tt, set_stdout (stdout w ++ text) w).

Definition sys_stderr_write (text : string) : io unit := fun w =>
  (Ok tt, set_stderr (stderr w ++ text) w).

(** *** Reading the log *)

(** The pieces a drain that stops at the first empty read receives, and
    what it leaves behind. *)
Fixpoint delivered (q : list string) : list string :=
  match q with
  | [] => []
  | bs :: q' => if String.eqb bs "" then [] else bs :: delivered q'
  end.

Fixpoint undelivered (q : list string) : list string :=
  match q with
  | [] => []
  | bs :: q' => if String.eqb bs "" then q' else undelivered q'
  end.

Fixpoint join (l : list string) : string :=
  match l with
  | [] => ""
  | x :: l' => x ++ join l'
  end.

Definition is_read (c : syscall) : bool :=
  match c with SysRead _ _ => true | _ => false end.

Definition is_open_tty (c : syscall) : bool :=
  match c with SysOpenTty _ => true | _ => false end.

Definition is_close (c : syscall) : bool :=
  match c with SysClose _ => true | _ => false end.

(** Every read comes before every close and every opening of the
    terminal: the drain is over when the descriptor is replaced. *)
Fixpoint drain_before_reopen (l : list syscall) : bool :=
  match l with
  | [] => true
  | c :: l' =>
      (if is_close c || is_open_tty c
       then forallb (fun c' => negb (is_read c')) l' else true)
      && drain_before_reopen l'
  end.

(** The other order: no close and no opening of the terminal once the
    reads have begun. *)
Fixpoint reopen_before_drain (l : list syscall) : bool :=
  match l with
  | [] => true
  | c :: l' =>
      (if is_read c
       then forallb (fun c' => negb (is_close c' || is_open_tty c')) l'
       else true)
      && reopen_before_drain l'
  end.

(** The events logged since the log was [before]. *)
Definition since (before now : list syscall) : list syscall :=
  drop (length before) now.

(** ** The sample document *)

Definition SAMPLE_JSON : json :=
  JObj [ ("a", JStr "foo");
         ("b", JInt 2);
         ("c", JObj [ ("d", JStr "baz");
                      ("e", JArr [JInt 1; JInt 2; JInt 3]) ]);
         ("d", JBool true);
         ("e", JNull);
         ("f", JFloat 4953959590107546 (-52)) ].

(** ** JMESPathDisplay *)

Definition OUTPUT_MODES : list string := ["result"; "expression"; "quiet"].

(** [OUTPUT_MODES.index(x)]; Python raises [ValueError] when [x] is not
    in the list. *)
Fixpoint list_index (x : string) (l : list string) : option nat :=
  match l with
  | [] => None
  | y :: l' => if String.eqb x y then Some O else option_map S (list_index x l')
  end.

(** What a [urwid.Text] widget shows: [set_text] takes a plain string
    or a list of (attribute, text) pairs. *)
Inductive markup : Type :=
| MStr (s : string)
| MList (l : list (attr * string)).

(** The object's attributes and the contents of the widgets that
    [_create_view] builds and the handlers write to. *)
Record JMESPathDisplay : Type := mkDisplay {
  parsed_json : json;
  output_mode : string;
  last_result : pyobj;               (* [None] until a result is kept *)
  last_expression : option string;   (* [None] until the first edit *)
  input_expr : string;               (* edit_text of the [urwid.Edit] *)
  input_json : markup;               (* left pane *)
  jmespath_result : markup;          (* right pane, "JMESPath Result" *)
  footer : string                    (* status line *)
}.

Definition set_last_expression (v : option string) (d : JMESPathDisplay) :=
  mkDisplay (parsed_json d) (output_mode d) (last_result d) v
            (input_expr d) (input_json d) (jmespath_result d) (footer d).
Definition set_last_result (v : pyobj) (d : JMESPathDisplay) :=
  mkDisplay (parsed_json d) (output_mode d) v (last_expression d)
            (input_expr d) (input_json d) (jmespath_result d) (footer d).
Definition set_output_mode (v : string) (d : JMESPathDisplay) :=
  mkDisplay (parsed_json d) v (last_result d) (last_expression d)
            (input_expr d) (input_json d) (jmespath_result d) (footer d).
Definition set_input_expr (v : string) (d : JMESPathDisplay) :=
  mkDisplay (parsed_json d) (output_mode d) (last_result d) (last_expression d)
            v (input_json d) (jmespath_result d) (footer d).
Definition set_jmespath_result (v : markup) (d : JMESPathDisplay) :=
  mkDisplay (parsed_json d) (output_mode d) (last_result d) (last_expression d)
            (input_expr d) (input_json d) v (footer d).
Definition set_footer (v : string) (d : JMESPathDisplay) :=
  mkDisplay (parsed_json d) (output_mode d) (last_result d) (last_expression d)
            (input_expr d) (input_json d) (jmespath_result d) v.

(** What reaches the main loop: the edit widget reporting a new text
    (its 'change' signal), a key no widget handled, or Ctrl-C. *)
Inductive event : Type :=
| EditChanged (text : string)
| KeyPress (key : string)
| Interrupt.

(** How [loop.run()] ends, as far as the given events go. *)
Inductive loop_end : Type :=
| LoopExited                 (* [ExitMainLoop] was raised: run() returns *)
| LoopRaised (e : exn)       (* any other exception leaves run() *)
| LoopWaiting.               (* events used up: still waiting for input *)

(** The parsed command line. *)
Record Namespace : Type := mkArgs {
  arg_input_json : option string;
  arg_output_mode : string;
  arg_output_file : option string
}.

(** What [parser.parse_args()] does with the command line: it returns
    the arguments, or writes to standard output (help, version) or to
    the error stream (usage) and raises [SystemExit]. *)
Inductive parsed : Type :=
| Parsed (args : Namespace)
| ArgExit (code : Z) (out err : string).

(** How [main] ends for the events it is given. *)
Inductive exit : Type :=
| Returned (code : Z)
| Uncaught (e : exn)
| SysExit (code : Z)   (* [SystemExit(code)], raised by [parse_args] *)
| Waiting.             (* the loop has used up the events *)

(** How the process ends when the file is run as a script. *)
Inductive process_end : Type :=
| Exit (status : Z)
| Killed               (* by SIGINT, after an uncaught [KeyboardInterrupt] *)
| Running.             (* still in the loop *)

Definition __version__ : string := "1.1.1".

(** The class name as a traceback's last line prints it. *)
Definition exc_name (c : exc_class) : string :=
  match c with
  | BaseException => "BaseException"
  | Exception => "Exception"
  | KeyboardInterrupt => "KeyboardInterrupt"
  | ValueError => "ValueError"
  | JSONDecodeError => "json.decoder.JSONDecodeError"
  | UnicodeDecodeError => "UnicodeDecodeError"
  | JMESPathError => "jmespath.exceptions.JMESPathError"
  | ParseError => "jmespath.exceptions.ParseError"
  | JMESPathTypeError => "jmespath.exceptions.JMESPathTypeError"
  | OSError => "OSError"
  | FileNotFoundError => "FileNotFoundError"
  | PermissionError => "PermissionError"
  | IndexError => "IndexError"
  | TypeError => "TypeError"
  | ExitMainLoop => "urwid.main_loop.ExitMainLoop"
  end.

(** ** Stand-ins for the libraries *)

(** Small functions in the place of [json], [jmespath] and [pygments],
    to run the program on concrete inputs.  The theorems below hold for
    every choice of these functions. *)

Definition dquote : string := String (Ascii.ascii_of_nat 34) EmptyString.

Fixpoint sep_join (sep : string) (l : list string) : string :=
  match l with
  | [] => ""
  | [x] => x
  | x :: l' => x ++ sep ++ sep_join sep l'
  end.

(** Indented by two, strings written without escapes, a float as its
    mantissa and exponent. *)
Fixpoint toy_dumps_at (ind : string) (v : json) {struct v} : string :=
  let inner := "  " ++ ind in
  match v with
  | JNull => "null"
  | JBool b => if b then "true" else "false"
  | JInt n => pretty n
  | JFloat m e => pretty m ++ "*2**" ++ pretty e
  | JStr s => dquote ++ s ++ dquote
  | JArr [] => "[]"
  | JArr items =>
      "[" ++ nl
      ++ sep_join ("," ++ nl)
           (map (fun x => inner ++ toy_dumps_at inner x) items)
      ++ nl ++ ind ++ "]"
  | JObj [] => "{}"
  | JObj fields =>
      "{" ++ nl
      ++ sep_join ("," ++ nl)
           (map (fun kv : string * json =>
                   let (k, x) := kv in
                   inner ++ dquote ++ k ++ dquote ++ ": "
                   ++ toy_dumps_at inner x)
                fields)
      ++ nl ++ ind ++ "}"
  | JOpaque o => match o with end
  end.

Definition toy_dumps : json -> string := toy_dumps_at "".

Fixpoint assoc (k : string) (fields : list (string * json)) : option json :=
  match fields with
  | [] => None
  | (k', v) :: rest => if String.eqb k k' then Some v else assoc k rest
  end.

Fixpoint ends_with_dot (s : string) : bool :=
  match s with
  | EmptyString => false
  | String c EmptyString => Ascii.eqb c "."%char
  | String _ s' => ends_with_dot s'
  end.

(** A bare field name: the field's value, [None] when there is no such
    field; a trailing dot is an incomplete expression; [&] and what
    follows is an expression reference. *)
Definition toy_search (text : string) (doc : json) : result pyobj :=
  if ends_with_dot text then
    Raise (Exn ParseError "Incomplete expression")
  else
    match text with
    | String "&"%char rest => Ok (JOpaque (mkExpression rest))
    | _ =>
        match doc with
        | JObj fields => Ok (default JNull (of_json <$> assoc text fields))
        | _ => Ok JNull
        end
    end.

(** One token for the whole text, then the newline the lexer adds. *)
Definition toy_get_tokens (text : string) : list token :=
  match text with
  | EmptyString => []
  | String c _ =>
      [ (if Ascii.eqb c "["%char || Ascii.eqb c "{"%char
         then "Token.Punctuation"
         else if (48 <=? Ascii.nat_of_ascii c)%nat
                 && (Ascii.nat_of_ascii c <=? 57)%nat
         then "Token.Literal.Number.Integer"
         else "Token.Keyword.Constant", text);
        ("Token.Text.Whitespace", nl) ]
  end.

Definition toy_decode (bs : string) : result string := Ok bs.

Definition toy_loads (text : string) : result json :=
  if String.eqb text "null" then Ok JNull
  else if String.eqb text "1" then Ok (JInt 1)
  else if String.eqb text "[1, 2, 3]" then Ok (JArr [JInt 1; JInt 2; JInt 3])
  else Raise (Exn JSONDecodeError "Expecting value: line 1 column 1 (char 0)").

(** No option, or one file name; [--version]; anything else is a usage
    error. *)
Definition toy_parse_args (argv : list string) : parsed :=
  match argv with
  | [] => Parsed (mkArgs None "result" None)
  | ["--version"] =>
      ArgExit 0 ("jmespath-term " ++ __version__ ++ ", community edition" ++ nl)
              ""
  | [name] =>
      if String.prefix "-" name
      then ArgExit 2 "" ("usage: jpterm [-h] [input-json]" ++ nl)
      else Parsed (mkArgs (Some name) "result" None)
  | _ => ArgExit 2 "" ("usage: jpterm [-h] [input-json]" ++ nl)
  end.

Definition toy_frames (e : exn) : string :=
  "  File jpterm.py, in main" ++ nl.

(** A terminal session, and one with data piped in. *)
Definition terminal_world : World :=
  mkWorld [Some OTty; Some OTty; Some OTty] [] [] true ∅ ∅ "" "" [].

Definition piped_world (chunks : list string) : World :=
  mkWorld [Some OPipe; Some OTty; Some OTty] chunks [] true ∅ ∅ "" "" [].

(** The document of the design document's scenario, [{a: 1, b: [1, 2, 3]}]. *)
Definition scenario_json : json :=
  JObj [("a", JInt 1); ("b", JArr [JInt 1; JInt 2; JInt 3])].

Section Jpterm.

(** The libraries the program calls, taken as they are. *)

(** [json.dumps(obj, indent=2, ensure_ascii=False)] *)
Variable json_dumps : json -> string.
(** [jmespath.compile(text).search(doc, options)]: the value found, or
    the exception raised by compiling or searching. *)
Variable jmespath_search : string -> json -> result pyobj.
(** [lexer.get_tokens(text)] of the pygments JSON lexer. *)
Variable get_tokens : string -> list token.
(** [bytes.decode()], and the decoding a text-mode file does (the
    locale's codec is taken to be UTF-8 as well); [UnicodeDecodeError]
    is a [ValueError]. *)
Variable decode : string -> result string.
(** [json.loads(text)]; [JSONDecodeError] is a [ValueError]. *)
Variable json_loads : string -> result json.
(** [parser.parse_args()] on [sys.argv[1:]], for the parser [main]
    builds. *)
Variable parse_args : list string -> parsed.
(** The "File ..., line ..." lines of the traceback the interpreter
    prints for an exception nothing caught. *)
Variable traceback_frames : exn -> string.

(** [json.dumps] raises [TypeError] on an object of a class it does not
    know. *)
Definition _json_dumps (obj : pyobj) : result string :=
  match to_json obj with
  | Some j => Ok (json_dumps j)
  | None =>
      Raise (Exn TypeError
                 "Object of type _Expression is not JSON serializable")
  end.

Definition _create_colorized_json (json_string : string)
  : list (attr * string) :=
  let tokens := get_tokens json_string in
  let markup := generate_colors tokens in
  markup.

(** [__init__] followed by [_create_view].  The document is JSON data
    and nothing else, which [json.dumps] serializes
    ([json_dumps_document]). *)
Definition new_display (input_data : json) (mode : string)
  : JMESPathDisplay :=
  {| parsed_json := input_data;
     output_mode := mode;
     last_result := JNull;
     last_expression := None;
     input_expr := "";
     input_json := MList (_create_colorized_json (json_dumps input_data));
     jmespath_result := MStr "";
     footer := "Status: " |}.

Definition _on_edit (text : string) (self : JMESPathDisplay)
  : result unit * JMESPathDisplay :=
  let self := set_last_expression (Some text) self in
  if String.eqb text "" then
    (Ok tt, set_jmespath_result (MStr "") self)
  else
    match jmespath_search text (parsed_json self) with
    | Raise e =>
        (* the status line is written after the search, so not here *)
        if isinstance e Exception then (Ok tt, self)   (* except: pass *)
        else (Raise e, self)
    | Ok result_ =>
        let self := set_footer "Status: success" self in
        (* the else clause: no handler around it *)
        if negb (is_None result_) then
          let self := set_last_result result_ self in
          match _json_dumps result_ with
          | Raise e => (Raise e, self)
          | Ok json_string =>
              let result_markup := _create_colorized_json json_string in
              (Ok tt, set_jmespath_result (MList result_markup) self)
          end
        else (Ok tt, self)
    end.

(** Assigning [input_expr.edit_text]: [urwid.Edit] emits 'change' with
    the new text, which [_create_view] connected to [_on_edit], and
    then stores the text. *)
Definition set_edit_text (text : string) (self : JMESPathDisplay)
  : result unit * JMESPathDisplay :=
  match _on_edit text self with
  | (Ok _, self) => (Ok tt, set_input_expr text self)
  | (Raise e, self) => (Raise e, self)
  end.

Definition unhandled_input (key : string) (self : JMESPathDisplay)
  : result unit * JMESPathDisplay :=
  if String.eqb key "f5" then
    (Raise (Exn ExitMainLoop ""), self)
  else if String.eqb key "ctrl ]" then
    match set_edit_text "" self with
    | (Ok _, self) => (Ok tt, set_jmespath_result (MStr "") self)
    | (Raise e, self) => (Raise e, self)
    end
  else if String.eqb key "ctrl p" then
    match list_index (output_mode self) OUTPUT_MODES with
    | None => (Raise (Exn ValueError "value is not in list"), self)
    | Some i =>
        match OUTPUT_MODES !! ((i + 1) mod length OUTPUT_MODES)%nat with
        | None => (Raise (Exn IndexError "list index out of range"), self)
        | Some new_mode =>
            let self := set_output_mode new_mode self in
            (Ok tt,
             set_footer ("Status: output mode set to " ++ new_mode) self)
        end
    end
  else (Ok tt, self).

(** One event, as the main loop dispatches it. *)
Definition dispatch (ev : event) (self : JMESPathDisplay)
  : result unit * JMESPathDisplay :=
  match ev with
  | EditChanged text => set_edit_text text self
  | KeyPress key => unhandled_input key self
  | Interrupt => (Raise (Exn KeyboardInterrupt ""), self)
  end.

(** [loop.run()]: events are handled one after the other, each one to
    its end before the next. *)
Fixpoint run (events : list event) (self : JMESPathDisplay)
  : loop_end * JMESPathDisplay :=
  match events with
  | [] => (LoopWaiting, self)
  | ev :: rest =>
      match dispatch ev self with
      | (Ok _, self) => run rest self
      | (Raise e, self) =>
          if isinstance e ExitMainLoop then (LoopExited, self)
          else (LoopRaised e, self)
      end
  end.

Local Open Scope io_scope.

Definition display_output (filename : option string) (self : JMESPathDisplay)
  : io unit :=
  let emit (result_ : string) : io unit :=
    match filename with
    | Some path => write_file path result_
    | None => sys_stdout_write result_
    end in
  if String.eqb (output_mode self) "result"
     && negb (is_None (last_result self)) then
    result_ <- lift (_json_dumps (last_result self)) ;;
    emit result_
  else
    match String.eqb (output_mode self) "expression", last_expression self with
    | true, Some expression => emit expression
    | _, _ => ret tt
    end.

(** The [while True] loop of [_load_json_from_pipe].  [rounds] bounds
    the iterations so that the definition is structural; the caller
    passes one more than the number of pieces pending, and
    [read_all_pipe] shows the loop then always ends at the empty read. *)
Fixpoint read_all (rounds : nat) (stdin : nat) (buf : string) : io string :=
  match rounds with
  | O => ret buf
  | S rounds' =>
      bs <- os_read stdin ;;
      if String.eqb bs "" then ret buf
      else read_all rounds' stdin (buf ++ bs)
  end.

Definition _load_json_from_pipe : io json :=
  let fd := sys_stdin_fileno in
  stdin <- os_dup fd ;;
  os_close fd ;;
  _ <- os_open_ctermid ;;
  data <- (fun w => read_all (S (length (pending stdin w))) stdin "" w) ;;
  text <- lift (decode data) ;;
  lift (json_loads text).

Definition _load_input_json (filename : option string) : io json :=
  match filename with
  | Some path =>
      content <- read_file path ;;
      text <- lift (decode content) ;;
      lift (json_loads text)
  | None =>
      tty <- os_isatty sys_stdin_fileno ;;
      if negb tty then _load_json_from_pipe
      else ret SAMPLE_JSON
  end.

(** [main] from the arguments [parse_args] returned on, that is from
    the loading of the document to the [return]; the second component
    is the display object once it has been created and its loop run,
    [None] before that. *)
Definition main_parsed (args : Namespace) (events : list event) (w : World)
  : exit * option JMESPathDisplay * World :=
  match _load_input_json (arg_input_json args) w with
  | (Raise e, w) =>
      if isinstance e ValueError then
        let '(_, w) :=
          sys_stderr_write
            ("Unable to load the input JSON: " ++ exn_str e ++ nl ++ nl) w in
        (Returned 1, None, w)
      else (Uncaught e, None, w)
  | (Ok input_json_, w) =>
      let display := new_display input_json_ (arg_output_mode args) in
      let '(ended, display) := run events display in
      (* try: display.main(screen=screen)  except KeyboardInterrupt: pass *)
      let stopped :=
        match ended with
        | LoopExited => None
        | LoopRaised e =>
            if isinstance e KeyboardInterrupt then None else Some (Uncaught e)
        | LoopWaiting => Some Waiting
        end in
      match stopped with
      | Some how => (how, Some display, w)
      | None =>
          match display_output (arg_output_file args) display w with
          | (Ok _, w) => (Returned 0, Some display, w)
          | (Raise e, w) => (Uncaught e, Some display, w)
          end
      end
  end.

(** [main]: the command line is parsed first; [parse_args] may write
    and leave by [SystemExit]. *)
Definition main (argv : list string) (events : list event) (w : World)
  : exit * option JMESPathDisplay * World :=
  match parse_args argv with
  | ArgExit code out err =>
      (SysExit code, None,
       set_stderr (stderr w ++ err) (set_stdout (stdout w ++ out) w))
  | Parsed args => main_parsed args events w
  end.

(** What the interpreter prints on the error stream for an exception
    that nothing caught. *)
Definition traceback_text (e : exn) : string :=
  "Traceback (most recent call last):" ++ nl
  ++ traceback_frames e
  ++ exc_name (exn_class e)
  ++ (if String.eqb (exn_str e) "" then "" else ": " ++ exn_str e)
  ++ nl.

(** The file run as a script: [sys.exit(main())].  The value [main]
    returns, or the code of a [SystemExit], is the exit status; an
    exception that leaves [main] is printed and the status is 1 (an
    uncaught [KeyboardInterrupt] is printed and the process ends by
    SIGINT). *)
Definition script (argv : list string) (events : list event) (w : World)
  : process_end * World :=
  match main argv events w with
  | (Returned code, _, w) => (Exit code, w)
  | (SysExit code, _, w) => (Exit code, w)
  | (Uncaught e, _, w) =>
      let w := set_stderr (stderr w ++ traceback_text e) w in
      if isinstance e KeyboardInterrupt then (Killed, w) else (Exit 1, w)
  | (Waiting, _, w) => (Running, w)
  end.

(** ** The behaviour the design document words *)

(** The three places the document can come from. *)
Inductive source : Type :=
| FromFile (path : string)
| FromPipe
| FromSample.

(** "explicit filename > piped stream > sample" *)
Definition choose_source (filename : option string) (stdin_is_tty : bool)
  : source :=
  match filename with
  | Some path => FromFile path
  | None => if stdin_is_tty then FromSample else FromPipe
  end.

Definition stdin_is_tty (w : World) : bool :=
  match fdtable w !! sys_stdin_fileno with
  | Some (Some OTty) => true
  | _ => false
  end.

(** What each source does: the file is read and parsed, the pipe is
    handed to [_load_json_from_pipe], the sample is returned as it is. *)
Definition load_from (src : source) : io json :=
  match src with
  | FromFile path =>
      content <- read_file path ;;
      text <- lift (decode content) ;;
      lift (json_loads text)
  | FromPipe => _load_json_from_pipe
  | FromSample => ret SAMPLE_JSON
  end.

(** The finalizer's choice of text, by output mode: the serialized Last
    Result, Last Expression verbatim, or nothing. *)
Definition finalize_text (mode : string) (lastResult : pyobj)
    (lastExpression : option string) : result (option string) :=
  if String.eqb mode "result" then
    if is_None lastResult then Ok None
    else match _json_dumps lastResult with
         | Ok text => Ok (Some text)
         | Raise e => Raise e
         end
  else if String.eqb mode "expression" then Ok lastExpression
  else Ok None.

(** The finalizer's destination: the configured file, else standard
    output. *)
Definition write_destination (destination : option string) (text : string)
  : io unit :=
  match destination with
  | Some path => write_file path text
  | None => sys_stdout_write text
  end.

Definition is_open_file (c : syscall) : bool :=
  match c with SysOpenFile _ _ => true | _ => false end.

(** A computation that leaves the files alone: it opens none and
    changes none. *)
Definition opens_no_file {A : Type} (m : io A) : Prop :=
  forall w, exists l,
    syslog (snd (m w)) = (syslog w ++ l)%list
    /\ forallb (fun c => negb (is_open_file c)) l = true
    /\ files (snd (m w)) = files w.

(** The output mode is one of the three. *)
Definition valid_mode (self : JMESPathDisplay) : Prop :=
  In (output_mode self) OUTPUT_MODES.

(** The library raises errors only: whatever the search raises is an
    instance of [Exception]. *)
Definition search_raises_errors_only : Prop :=
  forall text doc e,
    jmespath_search text doc = Raise e -> isinstance e Exception = true.


(** Last Expression, once set, is the text of the input field. *)
Definition field_is_recorded (self : JMESPathDisplay) : Prop :=
  last_expression self = None
  \/ last_expression self = Some (input_expr self).

(** A text that is not empty and gives nothing to show against [doc]:
    the search returns [None] or raises an error. *)
Definition shows_nothing (doc : json) (text : string) : Prop :=
  text <> ""
  /\ (jmespath_search text doc = Ok JNull
      \/ exists e, jmespath_search text doc = Raise e
                   /\ isinstance e Exception = true).

(** Nothing has been kept for the final output. *)
Definition nothing_kept (self : JMESPathDisplay) : Prop :=
  last_result self = JNull /\ last_expression self = None.

(** A computation that writes to neither output stream and changes no
    file. *)
Definition keeps_outputs {A : Type} (m : io A) : Prop :=
  forall w,
    stdout (snd (m w)) = stdout w
    /\ stderr (snd (m w)) = stderr w
    /\ files (snd (m w)) = files w.

(** An exception that left [_on_edit]: from [json.dumps], or one from
    the search that is no [Exception]. *)
Definition raised_by_edit (e : exn) : Prop :=
  exn_class e = TypeError
  \/ (isinstance e Exception = false
      /\ exists text doc, jmespath_search text doc = Raise e).

(** An event that cannot end the loop with an exception: a key, or an
    edit whose search, against [doc], raises an error or returns [None]
    or JSON data. *)
Definition harmless (doc : json) (ev : event) : Prop :=
  match ev with
  | EditChanged text =>
      match jmespath_search text doc with
      | Ok v => to_json v <> None
      | Raise e => isinstance e Exception = true
      end
  | KeyPress _ => True
  | Interrupt => False
  end.

(** Case analysis along the branches of [_on_edit] and of
    [unhandled_input]. *)
Ltac on_edit_cases text self :=
  unfold _on_edit; destruct (String.eqb text "") eqn:?; simpl;
  [|destruct (jmespath_search text (parsed_json self)) as [?v|?e] eqn:?;
    simpl;
    [destruct (is_None v) eqn:?; simpl;
     [|unfold _json_dumps; destruct (to_json v) as [?j|] eqn:?; simpl]
    |destruct (isinstance e Exception) eqn:?; simpl]].

Ltac key_cases key self :=
  unfold unhandled_input;
  destruct (String.eqb key "f5") eqn:?;
  [|destruct (String.eqb key "ctrl ]") eqn:?;
    [|destruct (String.eqb key "ctrl p") eqn:?;
      [destruct (list_index (output_mode self) OUTPUT_MODES) as [?i|] eqn:?;
       [destruct (OUTPUT_MODES !! ((i + 1) mod length OUTPUT_MODES)%nat)
          as [?new_mode|] eqn:?|]|]]];
  simpl.

(** ** Values *)

(** A document is JSON data: [json.dumps] serializes it. *)
Fixpoint to_json_of_json (j : json) {struct j} : to_json (of_json j) = Some j.
Proof.
  destruct j as [|b|n|m e|s|items|fields|[]]; simpl; try reflexivity.
  - match goal with
    | |- option_map _ ?all = _ => assert (H : all = Some items)
    end.
    { induction items as [|x l IH]; simpl; [reflexivity|].
      rewrite (to_json_of_json x), IH. reflexivity. }
    rewrite H. reflexivity.
  - match goal with
    | |- option_map _ ?all = _ => assert (H : all = Some fields)
    end.
    { induction fields as [|[k x] l IH]; simpl; [reflexivity|].
      rewrite (to_json_of_json x), IH. reflexivity. }
    rewrite H. reflexivity.
Qed.

Lemma json_dumps_document (doc : json) :
  _json_dumps (of_json doc) = Ok (json_dumps doc).
Proof. unfold _json_dumps. rewrite to_json_of_json. reflexivity. Qed.

(** ** The display: edits *)

Lemma eqb_nonempty (text : string) : text <> "" -> String.eqb text "" = false.
Proof. intros H. apply String.eqb_neq. exact H. Qed.

(** C1, as the code has it: an edit event with the empty text, and the
    clear key, end normally, empty the result pane and leave Last Result,
    the status line and the output mode as they were; Last Expression is
    overwritten with the empty text. *)
Theorem empty_edit_clears_pane_and_records_text (self : JMESPathDisplay) :
  let edited := _on_edit "" self in
  let cleared := unhandled_input "ctrl ]" self in
  (fst edited = Ok tt
   /\ jmespath_result (snd edited) = MStr ""
   /\ last_result (snd edited) = last_result self
   /\ footer (snd edited) = footer self
   /\ output_mode (snd edited) = output_mode self
   /\ last_expression (snd edited) = Some "")
  /\ (fst cleared = Ok tt
      /\ jmespath_result (snd cleared) = MStr ""
      /\ input_expr (snd cleared) = ""
      /\ last_result (snd cleared) = last_result self
      /\ footer (snd cleared) = footer self
      /\ output_mode (snd cleared) = output_mode self
      /\ last_expression (snd cleared) = Some "").
Proof.
  cbv zeta. split.
  - unfold _on_edit. simpl. repeat split; reflexivity.
  - unfold unhandled_input, set_edit_text, _on_edit. simpl.
    repeat split; reflexivity.
Qed.

(** C2: when the search of a non-empty expression raises an error (an
    instance of [Exception]), the handler ends normally, the result
    pane, Last Result and the status line are what they were, and the
    loop goes on with the next event. *)
Theorem failed_search_leaves_display (text : string) (self : JMESPathDisplay)
    (e : exn)
    (Htext : text <> "")
    (Hraise : jmespath_search text (parsed_json self) = Raise e)
    (Herror : isinstance e Exception = true) :
  let self' := snd (_on_edit text self) in
  fst (_on_edit text self) = Ok tt
  /\ jmespath_result self' = jmespath_result self
  /\ last_result self' = last_result self
  /\ footer self' = footer self
  /\ forall rest,
       run (EditChanged text :: rest) self
       = run rest (set_input_expr text self').
Proof.
  cbv zeta.
  assert (Hedit : _on_edit text self
                  = (Ok tt, set_last_expression (Some text) self)).
  { unfold _on_edit. rewrite (eqb_nonempty _ Htext). simpl.
    rewrite Hraise, Herror. reflexivity. }
  rewrite Hedit. simpl. repeat split.
  intros rest. unfold set_edit_text. rewrite Hedit. reflexivity.
Qed.

(** C3: when the search of a non-empty expression returns [None],
    neither Last Result nor the result pane changes. *)
Theorem null_result_keeps_last_result_and_pane (text : string)
    (self : JMESPathDisplay)
    (Htext : text <> "")
    (Hnull : jmespath_search text (parsed_json self) = Ok JNull) :
  last_result (snd (_on_edit text self)) = last_result self
  /\ jmespath_result (snd (_on_edit text self)) = jmespath_result self.
Proof.
  unfold _on_edit. rewrite (eqb_nonempty _ Htext). simpl.
  rewrite Hnull. simpl. split; reflexivity.
Qed.

(** C4, where the code fails it: when the search of a non-empty
    expression returns a value other than [None] in which an
    [_Expression] occurs (as for [&a]), Last Result is set to it and the
    status line to "Status: success", but [json.dumps], called outside
    the [try], raises [TypeError]: the result pane is not updated and
    the exception leaves the handler and ends the main loop. *)
Theorem unserializable_result_leaves_the_handler (text : string)
    (self : JMESPathDisplay) (v : pyobj)
    (Htext : text <> "")
    (Hvalue : jmespath_search text (parsed_json self) = Ok v)
    (Hsome : is_None v = false)
    (Hopaque : to_json v = None) :
  let self' := snd (_on_edit text self) in
  exists e,
    exn_class e = TypeError
    /\ isinstance e Exception = true
    /\ fst (_on_edit text self) = Raise e
    /\ last_result self' = v
    /\ footer self' = "Status: success"
    /\ jmespath_result self' = jmespath_result self
    /\ forall rest,
         run (EditChanged text :: rest) self = (LoopRaised e, self').
Proof.
  cbv zeta.
  exists (Exn TypeError "Object of type _Expression is not JSON serializable").
  assert (Hedit : _on_edit text self
                  = (Raise (Exn TypeError
                              "Object of type _Expression is not JSON serializable"),
                     set_last_result v
                       (set_footer "Status: success"
                          (set_last_expression (Some text) self)))).
  { unfold _on_edit. rewrite (eqb_nonempty _ Htext). simpl.
    rewrite Hvalue, Hsome. simpl. unfold _json_dumps. rewrite Hopaque.
    reflexivity. }
  rewrite Hedit. simpl.
  split; [reflexivity|]. split; [reflexivity|]. split; [reflexivity|].
  split; [reflexivity|]. split; [reflexivity|]. split; [reflexivity|].
  intros rest. unfold set_edit_text. rewrite Hedit. reflexivity.
Qed.

(** X21: when the search of a non-empty expression returns a value [v]
    other than [None] that is JSON data [j], the handler ends normally,
    Last Result is [v], the status line reads "Status: success", and the
    result pane shows the tokens of
    [json.dumps(j, indent=2, ensure_ascii=False)], each with the
    attribute [TOKEN_TYPES] gives its kind (or [DEFAULT_COLOR]). *)
Theorem value_result_is_kept_and_shown (text : string)
    (self : JMESPathDisplay) (v : pyobj) (j : json)
    (Htext : text <> "")
    (Hvalue : jmespath_search text (parsed_json self) = Ok v)
    (Hsome : is_None v = false)
    (Hjson : to_json v = Some j) :
  let self' := snd (_on_edit text self) in
  fst (_on_edit text self) = Ok tt
  /\ last_result self' = v
  /\ footer self' = "Status: success"
  /\ jmespath_result self'
     = MList (map (fun tok : token =>
                     (default DEFAULT_COLOR (TOKEN_TYPES !! fst tok), snd tok))
                  (get_tokens (json_dumps j))).
Proof.
  cbv zeta. unfold _on_edit. rewrite (eqb_nonempty _ Htext). simpl.
  rewrite Hvalue, Hsome. simpl. unfold _json_dumps. rewrite Hjson. simpl.
  repeat split.
  unfold _create_colorized_json, generate_colors.
  f_equal. apply map_ext. intros [kind s]. reflexivity.
Qed.

(** C10: when the search of a non-empty expression returns [None], the
    status line is set to "Status: success" all the same, while the
    result pane and Last Result stay. *)
Theorem null_result_sets_status (text : string) (self : JMESPathDisplay)
    (Htext : text <> "")
    (Hnull : jmespath_search text (parsed_json self) = Ok JNull) :
  let self' := snd (_on_edit text self) in
  footer self' = "Status: success"
  /\ jmespath_result self' = jmespath_result self
  /\ last_result self' = last_result self.
Proof.
  cbv zeta. unfold _on_edit. rewrite (eqb_nonempty _ Htext). simpl.
  rewrite Hnull. simpl. repeat split.
Qed.


(** What [except Exception] lets through: an exception that is no
    [Exception], such as a [KeyboardInterrupt] arriving during the
    search, leaves the handler, after Last Expression was recorded. *)
Lemma non_error_leaves_on_edit (text : string) (self : JMESPathDisplay)
    (e : exn) :
  text <> "" ->
  jmespath_search text (parsed_json self) = Raise e ->
  isinstance e Exception = false ->
  _on_edit text self = (Raise e, set_last_expression (Some text) self).
Proof.
  intros Htext Hraise Hbase. unfold _on_edit.
  rewrite (eqb_nonempty _ Htext). simpl. rewrite Hraise, Hbase. reflexivity.
Qed.

(** ** The operating system: descriptors *)

Lemma append_assoc (s1 s2 s3 : string) : (s1 ++ s2) ++ s3 = s1 ++ (s2 ++ s3).
Proof.
  induction s1 as [|a s1 IH]; [reflexivity|].
  change (String a ((s1 ++ s2) ++ s3) = String a (s1 ++ (s2 ++ s3))).
  now rewrite IH.
Qed.

Lemma append_empty_r (s : string) : s ++ "" = s.
Proof.
  induction s as [|a s IH]; [reflexivity|].
  change (String a (s ++ "") = String a s). now rewrite IH.
Qed.

Lemma install_cons (f g : ofd) (t : list (option ofd)) :
  install f (Some g :: t) = Some g :: install f t.
Proof.
  unfold install. simpl lowest_free. simpl length.
  change (S (lowest_free t) <? S (length t))%nat
    with (lowest_free t <? length t)%nat.
  destruct (lowest_free t <? length t)%nat; reflexivity.
Qed.

Lemma install_lookup (f : ofd) (t : list (option ofd)) :
  install f t !! lowest_free t = Some (Some f).
Proof.
  induction t as [|[g|] t IH].
  - reflexivity.
  - rewrite install_cons. exact IH.
  - reflexivity.
Qed.

Lemma bind_ok {A B : Type} (m : io A) (k : A -> io B) (w w' : World) (a : A) :
  m w = (Ok a, w') -> bind m k w = k a w'.
Proof. intros H. unfold bind. rewrite H. reflexivity. Qed.

Lemma bind_raise {A B : Type} (m : io A) (k : A -> io B) (w w' : World)
    (e : exn) :
  m w = (Raise e, w') -> bind m k w = (Raise e, w').
Proof. intros H. unfold bind. rewrite H. reflexivity. Qed.

(** The drain of a pipe: with more rounds than pieces pending, the loop
    ends at the first empty read, having taken every piece before it. *)
Lemma read_all_pipe (q : list string) :
  forall (rounds stdin : nat) (buf : string) (w : World),
    fdtable w !! stdin = Some (Some OPipe) ->
    pipe_in w = q ->
    (length q < rounds)%nat ->
    read_all rounds stdin buf w
    = (Ok (buf ++ join (delivered q)),
       mkWorld (fdtable w) (undelivered q) (tty_in w) (ctty w) (files w)
               (unwritable w) (stdout w) (stderr w)
               (syslog w ++ map (SysRead stdin) (delivered q)
                         ++ [SysRead stdin ""])).
Proof.
  induction q as [|bs q IH]; intros rounds stdin buf w Hfd Hq Hlen;
    destruct rounds as [|rounds]; try (simpl in Hlen; lia);
    destruct w as [t pin tin ct fs uw out err lg]; simpl in Hfd, Hq; subst pin;
    unfold read_all; fold read_all; unfold bind, os_read; simpl fdtable;
    rewrite Hfd; simpl.
  - rewrite append_empty_r. reflexivity.
  - destruct (String.eqb bs "") eqn:Hbs.
    + apply String.eqb_eq in Hbs. subst bs. simpl.
      rewrite append_empty_r. reflexivity.
    + rewrite IH with (w := log (SysRead stdin bs)
                              (set_pipe_in q
                                 (mkWorld t (bs :: q) tin ct fs uw out err lg)));
        [|exact Hfd|reflexivity|simpl in Hlen; lia].
      simpl. rewrite append_assoc, <- !app_assoc. reflexivity.
Qed.


Lemma reads_open_no_tty (l : list syscall) :
  forallb is_read l = true -> List.filter is_open_tty l = [].
Proof.
  induction l as [|c l IH]; [reflexivity|].
  simpl. intros H. apply andb_true_iff in H as [Hc Hl].
  destruct c; try discriminate. simpl. apply IH. exact Hl.
Qed.

Lemma reads_keep_descriptors (l : list syscall) :
  forallb is_read l = true ->
  forallb (fun c => negb (is_close c || is_open_tty c)) l = true.
Proof.
  induction l as [|c l IH]; [reflexivity|].
  simpl. intros H. apply andb_true_iff in H as [Hc Hl].
  destruct c; try discriminate. simpl. apply IH. exact Hl.
Qed.

Lemma reads_are_ordered (l : list syscall) :
  forallb is_read l = true -> reopen_before_drain l = true.
Proof.
  induction l as [|c l IH]; [reflexivity|].
  simpl. intros H. apply andb_true_iff in H as [Hc Hl].
  rewrite Hc, (reads_keep_descriptors l Hl), (IH Hl). reflexivity.
Qed.

Lemma drain_log_is_reads (fd : nat) (chunks : list string) :
  forallb is_read (map (SysRead fd) chunks ++ [SysRead fd ""])%list = true.
Proof. induction chunks as [|c chunks IH]; [reflexivity|exact IH]. Qed.

(** C5, as the code has it: on the pipe path the standard-input
    descriptor is duplicated, closed and reopened on the controlling
    terminal first; only then is the duplicate read, up to the empty
    read that marks the end of the stream.  The terminal is opened
    exactly once, whatever decoding and parsing then do. *)
Theorem pipe_is_drained_after_reopen (w : World)
    (Hpipe : fdtable w !! sys_stdin_fileno = Some (Some OPipe))
    (Hctty : ctty w = true) :
  let dup_fd := lowest_free (fdtable w) in
  let chunks := delivered (pipe_in w) in
  let w' := snd (_load_json_from_pipe w) in
  let events := since (syslog w) (syslog w') in
  events = ([SysDup sys_stdin_fileno dup_fd; SysClose sys_stdin_fileno;
             SysOpenTty sys_stdin_fileno]
            ++ map (SysRead dup_fd) chunks ++ [SysRead dup_fd ""])%list
  /\ fst (_load_json_from_pipe w)
     = match decode (join chunks) with
       | Ok text => json_loads text
       | Raise e => Raise e
       end
  /\ fdtable w' !! sys_stdin_fileno = Some (Some OTty)
  /\ length (List.filter is_open_tty events) = 1%nat
  /\ reopen_before_drain events = true
  /\ drain_before_reopen events = false.
Proof.
  destruct w as [t pin tin ct fs uw out err lg]. simpl in Hpipe, Hctty.
  subst ct. destruct t as [|[[|]|] t]; try discriminate. clear Hpipe.
  cbv zeta. simpl fdtable. simpl pipe_in. simpl syslog at 1 3 5 7.
  set (d := lowest_free (Some OPipe :: t)).
  set (reads := (map (SysRead d) (delivered pin) ++ [SysRead d ""])%list).
  assert (Hrun : _load_json_from_pipe
                   (mkWorld (Some OPipe :: t) pin tin true fs uw out err lg)
                 = (match decode (join (delivered pin)) with
                    | Ok text => json_loads text
                    | Raise e => Raise e
                    end,
                    mkWorld (Some OTty :: install OPipe t) (undelivered pin)
                            tin true fs uw out err
                            (lg ++ [SysDup 0 d; SysClose 0; SysOpenTty 0]
                                ++ reads))).
  { set (w1 := mkWorld (Some OPipe :: install OPipe t) pin tin true fs uw
                       out err (lg ++ [SysDup 0 d])).
    set (w2 := mkWorld (None :: install OPipe t) pin tin true fs uw
                       out err (lg ++ [SysDup 0 d; SysClose 0])).
    set (w3 := mkWorld (Some OTty :: install OPipe t) pin tin true fs uw
                       out err (lg ++ [SysDup 0 d; SysClose 0; SysOpenTty 0])).
    assert (Hd : fdtable w3 !! d = Some (Some OPipe))
      by (unfold d; simpl; apply install_lookup).
    assert (H1 : os_dup 0 (mkWorld (Some OPipe :: t) pin tin true fs uw
                                   out err lg) = (Ok d, w1)).
    { unfold os_dup, w1. simpl. rewrite install_cons. reflexivity. }
    assert (H2 : os_close 0 w1 = (Ok tt, w2)).
    { unfold os_close, w1, w2, log. simpl. rewrite <- app_assoc. reflexivity. }
    assert (H3 : os_open_ctermid w2 = (Ok 0%nat, w3)).
    { unfold os_open_ctermid, w2, w3, log. simpl.
      rewrite <- app_assoc. reflexivity. }
    assert (H4 : read_all (S (length (pending d w3))) d "" w3
                 = (Ok (join (delivered pin)),
                    mkWorld (Some OTty :: install OPipe t) (undelivered pin)
                            tin true fs uw out err
                            (lg ++ [SysDup 0 d; SysClose 0; SysOpenTty 0]
                                ++ reads))).
    { rewrite (read_all_pipe pin); [|exact Hd|reflexivity|].
      - unfold w3. simpl. rewrite <- app_assoc. reflexivity.
      - unfold pending. rewrite Hd. simpl. lia. }
    unfold _load_json_from_pipe, sys_stdin_fileno.
    rewrite (bind_ok _ _ _ _ _ H1), (bind_ok _ _ _ _ _ H2),
      (bind_ok _ _ _ _ _ H3).
    rewrite (bind_ok
               (fun w => read_all (S (length (pending d w))) d "" w)
               _ _ _ _ H4).
    unfold bind, lift.
    destruct (decode (join (delivered pin))) as [text|e]; [|reflexivity].
    destruct (json_loads text); reflexivity. }
  rewrite Hrun. simpl. unfold since. rewrite drop_app_length.
  assert (Hreads : forallb is_read reads = true)
    by apply drain_log_is_reads.
  repeat split.
  - simpl. rewrite (reads_open_no_tty _ Hreads). reflexivity.
  - simpl. apply reads_are_ordered. exact Hreads.
  - simpl. unfold reads.
    rewrite forallb_app. simpl. rewrite andb_false_r. reflexivity.
Qed.


(** ** Where the document comes from *)

Lemma since_app (l k : list syscall) : since l (l ++ k) = k.
Proof. unfold since. apply drop_app_length. Qed.

Lemma since_same (l : list syscall) : since l l = [].
Proof. unfold since. apply drop_all. Qed.

Lemma onf_ret {A : Type} (a : A) : opens_no_file (ret a).
Proof. intros w. exists []. simpl. rewrite app_nil_r. auto. Qed.

Lemma onf_lift {A : Type} (r : result A) : opens_no_file (lift r).
Proof. intros w. exists []. simpl. rewrite app_nil_r. auto. Qed.

Lemma onf_bind {A B : Type} (m : io A) (k : A -> io B) :
  opens_no_file m -> (forall a, opens_no_file (k a)) ->
  opens_no_file (bind m k).
Proof.
  intros Hm Hk w. destruct (Hm w) as (l1 & Hlog1 & Hl1 & Hfiles1).
  unfold bind. destruct (m w) as [[a|e] w1]; simpl in *.
  - destruct (Hk a w1) as (l2 & Hlog2 & Hl2 & Hfiles2).
    exists (l1 ++ l2)%list. rewrite Hlog2, Hlog1, Hfiles2, Hfiles1.
    rewrite forallb_app, Hl1, Hl2, app_assoc. auto.
  - exists l1. auto.
Qed.

Lemma onf_os_isatty (fd : nat) : opens_no_file (os_isatty fd).
Proof.
  intros w. exists []. unfold os_isatty.
  destruct (fdtable w !! fd) as [[[|]|]|]; simpl; rewrite app_nil_r; auto.
Qed.

Lemma onf_os_dup (fd : nat) : opens_no_file (os_dup fd).
Proof.
  intros w. unfold os_dup. destruct (fdtable w !! fd) as [[f|]|]; simpl.
  - exists [SysDup fd (lowest_free (fdtable w))]. auto.
  - exists []. rewrite app_nil_r. auto.
  - exists []. rewrite app_nil_r. auto.
Qed.

Lemma onf_os_close (fd : nat) : opens_no_file (os_close fd).
Proof.
  intros w. unfold os_close. destruct (fdtable w !! fd) as [[f|]|]; simpl.
  - exists [SysClose fd]. auto.
  - exists []. rewrite app_nil_r. auto.
  - exists []. rewrite app_nil_r. auto.
Qed.

Lemma onf_os_open_ctermid : opens_no_file os_open_ctermid.
Proof.
  intros w. unfold os_open_ctermid. destruct (ctty w); simpl.
  - exists [SysOpenTty (lowest_free (fdtable w))]. auto.
  - exists []. rewrite app_nil_r. auto.
Qed.

Lemma onf_os_read (fd : nat) : opens_no_file (os_read fd).
Proof.
  intros w. unfold os_read.
  destruct (fdtable w !! fd) as [[[|]|]|]; simpl.
  - destruct (pipe_in w) as [|bs q]; simpl;
      [exists [SysRead fd ""]|exists [SysRead fd bs]]; auto.
  - destruct (tty_in w) as [|bs q]; simpl;
      [exists [SysRead fd ""]|exists [SysRead fd bs]]; auto.
  - exists []. rewrite app_nil_r. auto.
  - exists []. rewrite app_nil_r. auto.
Qed.

Lemma onf_read_all (rounds stdin : nat) :
  forall buf, opens_no_file (read_all rounds stdin buf).
Proof.
  induction rounds as [|rounds IH]; intros buf; simpl.
  - apply onf_ret.
  - apply onf_bind; [apply onf_os_read|].
    intros bs. destruct (String.eqb bs ""); [apply onf_ret|apply IH].
Qed.

Lemma onf_load_json_from_pipe : opens_no_file _load_json_from_pipe.
Proof.
  unfold _load_json_from_pipe.
  apply onf_bind; [apply onf_os_dup|intros stdin].
  apply onf_bind; [apply onf_os_close|intros _].
  apply onf_bind; [apply onf_os_open_ctermid|intros _].
  apply onf_bind.
  - intros w. apply (onf_read_all _ stdin "" w).
  - intros data. apply onf_bind; [apply onf_lift|intros text; apply onf_lift].
Qed.

(** C7: [_load_input_json] does what exactly one source does, the one
    the priority order picks: the named file whatever standard input is,
    else the pipe when standard input is no terminal, else the sample.
    Only that path runs: the file path leaves the descriptors and the
    pipe alone, the pipe path opens no file, and with no file name and
    a terminal the result is [SAMPLE_JSON] and nothing is touched. *)
Theorem one_source_by_priority (filename : option string) (w : World) :
  let w' := snd (_load_input_json filename w) in
  let events := since (syslog w) (syslog w') in
  _load_input_json filename w
  = load_from (choose_source filename (stdin_is_tty w)) w
  /\ match choose_source filename (stdin_is_tty w) with
     | FromFile path =>
         fdtable w' = fdtable w /\ pipe_in w' = pipe_in w
         /\ forallb is_open_file events = true
     | FromPipe =>
         filename = None
         /\ forallb (fun c => negb (is_open_file c)) events = true
         /\ files w' = files w
     | FromSample =>
         filename = None
         /\ _load_input_json filename w = (Ok SAMPLE_JSON, w)
     end.
Proof.
  cbv zeta.
  assert (Heq : _load_input_json filename w
                = load_from (choose_source filename (stdin_is_tty w)) w).
  { destruct filename as [path|]; [reflexivity|].
    unfold _load_input_json, choose_source, stdin_is_tty, bind, os_isatty.
    destruct (fdtable w !! sys_stdin_fileno) as [[[|]|]|]; reflexivity. }
  split; [exact Heq|]. rewrite Heq.
  destruct filename as [path|]; simpl choose_source.
  - unfold load_from, bind, read_file, lift.
    destruct (files w !! path) as [content|]; simpl.
    + destruct (decode content) as [text|e]; simpl;
        [destruct (json_loads text); simpl|]; rewrite since_app; auto.
    + rewrite since_same. auto.
  - destruct (stdin_is_tty w); simpl load_from.
    + split; reflexivity.
    + destruct (onf_load_json_from_pipe w) as (l & Hlog & Hl & Hfiles).
      rewrite Hlog, since_app. auto.
Qed.


(** ** Leaving the terminal *)

Lemma dispatch_keeps_serializable (ev : event) (self : JMESPathDisplay) :
  to_json (last_result self) <> None ->
  to_json (last_result (snd (dispatch ev self))) <> None
  \/ exists e, fst (dispatch ev self) = Raise e /\ exn_class e = TypeError.
Proof.
  intros Hinv. destruct ev as [text|key|]; simpl; [| |auto].
  - unfold set_edit_text. on_edit_cases text self; auto.
    + left. congruence.
    + right. eexists. split; reflexivity.
  - key_cases key self; auto.
Qed.

(** Unless [json.dumps] has raised out of the loop, Last Result is JSON
    data. *)
Lemma run_keeps_serializable (events : list event) :
  forall self,
    to_json (last_result self) <> None ->
    to_json (last_result (snd (run events self))) <> None
    \/ exists e, fst (run events self) = LoopRaised e
                 /\ exn_class e = TypeError.
Proof.
  induction events as [|ev events IH]; intros self Hinv; [auto|].
  simpl. pose proof (dispatch_keeps_serializable ev self Hinv) as Hstep.
  destruct (dispatch ev self) as [[[]|e] s1]; simpl in *.
  - destruct Hstep as [Hstep|(e & Hraise & _)]; [auto|discriminate].
  - destruct Hstep as [Hstep|(e' & [= <-] & Hclass)].
    + destruct (isinstance e ExitMainLoop); auto.
    + right. exists e. destruct e as [c msg]. simpl in Hclass. subst c.
      split; reflexivity.
Qed.

Lemma TypeError_is_no_interrupt (e : exn) :
  exn_class e = TypeError -> isinstance e KeyboardInterrupt = false.
Proof. destruct e as [c msg]. simpl. intros ->. reflexivity. Qed.

(** C8: [display_output] writes what the output mode selects, where the
    destination says.  In "result" mode that is the [_json_dumps] text of
    Last Result (the serialization the result pane is built from) when
    Last Result is not [None], in "expression" mode Last Expression as it
    is when it is not [None], and nothing in "quiet" mode or when the
    value is [None].  With a file name the file then holds exactly that
    text and standard output is untouched; without one the text is
    appended to standard output and no file changes.  When [main] gets
    to the final output, after the exit key or a keyboard interrupt,
    Last Result is JSON data and the serialization does not raise. *)
Theorem display_output_follows_mode (filename : option string)
    (self : JMESPathDisplay) (w : World) :
  display_output filename self w
  = match finalize_text (output_mode self) (last_result self)
                        (last_expression self) with
    | Ok (Some text) => write_destination filename text w
    | Ok None => (Ok tt, w)
    | Raise e => (Raise e, w)
    end
  /\ (forall lr le,
        finalize_text "result" lr le
        = if is_None lr then Ok None
          else match _json_dumps lr with
               | Ok text => Ok (Some text)
               | Raise e => Raise e
               end)
  /\ (forall lr le, finalize_text "expression" lr le = Ok le)
  /\ (forall lr le, finalize_text "quiet" lr le = Ok None)
  /\ (forall path text,
        path ∉ unwritable w ->
        let w' := snd (write_destination (Some path) text w) in
        fst (write_destination (Some path) text w) = Ok tt
        /\ files w' = <[path := text]> (files w)
        /\ stdout w' = stdout w)
  /\ (forall text,
        let w' := snd (write_destination None text w) in
        fst (write_destination None text w) = Ok tt
        /\ stdout w' = stdout w ++ text
        /\ files w' = files w)
  /\ (forall doc mode events,
        let final := snd (run events (new_display doc mode)) in
        (fst (run events (new_display doc mode)) = LoopExited
         \/ exists e, fst (run events (new_display doc mode)) = LoopRaised e
                      /\ isinstance e KeyboardInterrupt = true) ->
        exists j, to_json (last_result final) = Some j
                  /\ _json_dumps (last_result final) = Ok (json_dumps j)).
Proof.
  split; [|split; [|split; [|split; [|split; [|split]]]]];
    try reflexivity.
  - unfold display_output, finalize_text, write_destination, bind, lift.
    destruct (String.eqb (output_mode self) "result") eqn:Hmode.
    + apply String.eqb_eq in Hmode. rewrite Hmode. simpl.
      destruct (is_None (last_result self)); simpl; [reflexivity|].
      destruct (_json_dumps (last_result self)); reflexivity.
    + simpl.
      destruct (String.eqb (output_mode self) "expression");
        destruct (last_expression self); reflexivity.
  - intros path text Hpath. simpl. unfold write_file.
    destruct (decide (path ∈ unwritable w)); [contradiction|].
    repeat split.
  - intros text. simpl. repeat split.
  - intros doc mode events. cbv zeta. intros Hended.
    destruct (run_keeps_serializable events (new_display doc mode))
      as [Hjson|(e & Hraised & Hclass)]; [discriminate| |].
    + unfold _json_dumps.
      destruct (to_json (last_result (snd (run events (new_display doc mode)))))
        as [j|]; [|contradiction].
      exists j. split; reflexivity.
    + exfalso. destruct Hended as [Hexit|(e' & Hraised' & Hkbd)].
      * congruence.
      * rewrite Hraised in Hraised'. injection Hraised' as <-.
        rewrite (TypeError_is_no_interrupt _ Hclass) in Hkbd. discriminate.
Qed.

(** ** main *)

(** X22: [main], once the command line is parsed, catches [ValueError]
    only.  When loading raises one (the bytes do not decode, the text
    does not parse), it appends its own message to the error stream and
    returns 1 without creating the display.  Any other exception of the
    load leaves it uncaught, with no message of its own; so does the
    [FileNotFoundError] of a file name that cannot be opened.  When the
    loop ends by the exit key or by a keyboard interrupt and the final
    output is written, it returns 0. *)
Theorem main_exit_codes (args : Namespace) (events : list event) (w : World) :
  (forall e w',
      _load_input_json (arg_input_json args) w = (Raise e, w') ->
      isinstance e ValueError = true ->
      main_parsed args events w
      = (Returned 1, None,
         set_stderr (stderr w' ++ ("Unable to load the input JSON: "
                                   ++ exn_str e ++ nl ++ nl)) w'))
  /\ (forall e w',
        _load_input_json (arg_input_json args) w = (Raise e, w') ->
        isinstance e ValueError = false ->
        main_parsed args events w = (Uncaught e, None, w'))
  /\ (forall path,
        arg_input_json args = Some path ->
        files w !! path = None ->
        exists e, exn_class e = FileNotFoundError
                  /\ main_parsed args events w = (Uncaught e, None, w))
  /\ (forall doc w1 ended display w2,
        _load_input_json (arg_input_json args) w = (Ok doc, w1) ->
        run events (new_display doc (arg_output_mode args))
        = (ended, display) ->
        (ended = LoopExited
         \/ exists e, ended = LoopRaised e
                      /\ isinstance e KeyboardInterrupt = true) ->
        display_output (arg_output_file args) display w1 = (Ok tt, w2) ->
        main_parsed args events w = (Returned 0, Some display, w2)).
Proof.
  repeat split.
  - intros e w' Hload Hval. unfold main_parsed. rewrite Hload, Hval. reflexivity.
  - intros e w' Hload Hval. unfold main_parsed. rewrite Hload, Hval. reflexivity.
  - intros path Hpath Hmissing. eexists. split; [|unfold main_parsed].
    2:{ rewrite Hpath. unfold _load_input_json, bind, read_file.
        rewrite Hmissing. reflexivity. }
    reflexivity.
  - intros doc w1 ended display w2 Hload Hrun Hended Hout.
    unfold main_parsed. rewrite Hload, Hrun.
    destruct Hended as [->|(e & -> & Hkbd)]; [|rewrite Hkbd];
      rewrite Hout; reflexivity.
Qed.

(** ** The colour table *)

Lemma TOKEN_TYPES_are_AttrSpec (kind : string) (a : attr) :
  TOKEN_TYPES !! kind = Some a -> is_AttrSpec a = true.
Proof.
  intros H. apply elem_of_list_to_map_2 in H.
  repeat (apply elem_of_cons in H as [H|H]; [injection H as _ ->; reflexivity|]).
  apply elem_of_nil in H. destruct H.
Qed.

(** C9, at a token kind the table does not list: every value of
    [TOKEN_TYPES] is an [AttrSpec], and the whitespace token of the JSON
    lexer, which has no entry, is given [DEFAULT_COLOR], a tuple holding
    an [AttrSpec] and not an [AttrSpec] itself. *)
Theorem unlisted_token_gets_a_tuple :
  let out := generate_colors [("Token.Punctuation", "[");
                              ("Token.Text.Whitespace", " ")] in
  out = [(AttrSpec "light blue" "default", "[");
         (PyTuple [AttrSpec "light blue" "default"], " ")]
  /\ map (fun p => is_AttrSpec (fst p)) out = [true; false]
  /\ (forall kind a, TOKEN_TYPES !! kind = Some a -> is_AttrSpec a = true)
  /\ (forall kind text,
        TOKEN_TYPES !! kind = None ->
        generate_colors [(kind, text)] = [(DEFAULT_COLOR, text)])
  /\ is_AttrSpec DEFAULT_COLOR = false.
Proof.
  cbv zeta. split; [|split; [|split; [|split]]].
  - vm_compute. reflexivity.
  - vm_compute. reflexivity.
  - apply TOKEN_TYPES_are_AttrSpec.
  - intros kind text Hnone. unfold generate_colors. simpl.
    rewrite Hnone. reflexivity.
  - reflexivity.
Qed.

(** ** More on the colour table *)

(** X1: [generate_colors] yields one pair per token, in order, with the
    token's text untouched, and handles a stream piece by piece. *)
Theorem generate_colors_keeps_text (tokens more : list token) :
  map snd (generate_colors tokens) = map snd tokens
  /\ length (generate_colors tokens) = length tokens
  /\ generate_colors (tokens ++ more)
     = (generate_colors tokens ++ generate_colors more)%list.
Proof.
  unfold generate_colors. split; [|split].
  - rewrite List.map_map. apply map_ext. intros [kind text]. reflexivity.
  - apply length_map.
  - apply map_app.
Qed.

(** ** More on the keys *)

Lemma list_index_None (x : string) (l : list string) :
  ~ In x l -> list_index x l = None.
Proof.
  induction l as [|y l IH]; [reflexivity|]. intros Hnot. simpl.
  destruct (String.eqb x y) eqn:Hxy.
  - apply String.eqb_eq in Hxy. subst y. exfalso. apply Hnot. left. reflexivity.
  - rewrite IH; [reflexivity|]. intros Hin. apply Hnot. right. exact Hin.
Qed.

(** X2: with a mode of [OUTPUT_MODES], the mode key ends normally, moves
    to another mode, names it in the status line and touches nothing
    else; three presses come back to the mode one started in. *)
Theorem mode_key_cycles_through_three (self : JMESPathDisplay)
    (Hmode : valid_mode self) :
  let once := snd (unhandled_input "ctrl p" self) in
  let twice := snd (unhandled_input "ctrl p" once) in
  let thrice := snd (unhandled_input "ctrl p" twice) in
  fst (unhandled_input "ctrl p" self) = Ok tt
  /\ valid_mode once
  /\ output_mode once <> output_mode self
  /\ output_mode twice <> output_mode self
  /\ output_mode thrice = output_mode self
  /\ footer once = "Status: output mode set to " ++ output_mode once
  /\ last_result once = last_result self
  /\ last_expression once = last_expression self
  /\ jmespath_result once = jmespath_result self
  /\ input_expr once = input_expr self
  /\ parsed_json once = parsed_json self.
Proof.
  destruct self as [doc mode lr le field left pane foot].
  unfold valid_mode, OUTPUT_MODES in *. simpl in Hmode.
  destruct Hmode as [<-|[<-|[<-|[]]]]; cbv zeta; vm_compute;
    repeat split; try discriminate; auto 6.
Qed.

(** X3: with a mode that is none of [OUTPUT_MODES], the mode key raises
    a [ValueError] (which no handler of the loop or of [main] catches)
    and the display is left as it was. *)
Theorem mode_key_unknown_mode_raises (self : JMESPathDisplay)
    (Hmode : ~ valid_mode self) :
  exists e,
    exn_class e = ValueError
    /\ unhandled_input "ctrl p" self = (Raise e, self)
    /\ forall rest, run (KeyPress "ctrl p" :: rest) self = (LoopRaised e, self).
Proof.
  exists (Exn ValueError "value is not in list").
  assert (Hkey : unhandled_input "ctrl p" self
                 = (Raise (Exn ValueError "value is not in list"), self)).
  { unfold unhandled_input.
    rewrite (list_index_None _ _ Hmode). reflexivity. }
  split; [reflexivity|]. split; [exact Hkey|].
  intros rest. simpl. rewrite Hkey. reflexivity.
Qed.

(** X15: the clear key does what an edit to the empty text does. *)
Theorem clear_key_is_an_empty_edit (self : JMESPathDisplay) :
  unhandled_input "ctrl ]" self = dispatch (EditChanged "") self
  /\ forall rest,
       run (KeyPress "ctrl ]" :: rest) self
       = run (EditChanged "" :: rest) self.
Proof.
  assert (Hsame : unhandled_input "ctrl ]" self
                  = dispatch (EditChanged "") self).
  { destruct self. reflexivity. }
  split; [exact Hsame|]. intros rest.
  change (run (KeyPress "ctrl ]" :: rest) self)
    with (match unhandled_input "ctrl ]" self with
          | (Ok _, s) => run rest s
          | (Raise e, s) =>
              if isinstance e ExitMainLoop then (LoopExited, s)
              else (LoopRaised e, s)
          end).
  rewrite Hsame. reflexivity.
Qed.

(** ** Invariants of a session *)

Lemma dispatch_keeps_document (ev : event) (self : JMESPathDisplay) :
  parsed_json (snd (dispatch ev self)) = parsed_json self
  /\ input_json (snd (dispatch ev self)) = input_json self.
Proof.
  destruct ev as [text|key|]; simpl; [| |auto].
  - unfold set_edit_text. on_edit_cases text self; auto.
  - key_cases key self; auto.
Qed.

(** X4: the loaded document, and the left pane that shows it, are the
    same after any sequence of events. *)
Theorem document_is_never_changed (events : list event) :
  forall self,
    parsed_json (snd (run events self)) = parsed_json self
    /\ input_json (snd (run events self)) = input_json self.
Proof.
  induction events as [|ev events IH]; intros self; [auto|].
  simpl. destruct (dispatch_keeps_document ev self) as [Hdoc Hleft].
  destruct (dispatch ev self) as [[[]|e] s1]; simpl in *.
  - destruct (IH s1) as [Hdoc' Hleft']. split; congruence.
  - destruct (isinstance e ExitMainLoop); auto.
Qed.

Lemma dispatch_last_result (ev : event) (self : JMESPathDisplay) :
  last_result (snd (dispatch ev self)) = last_result self
  \/ exists text,
       ev = EditChanged text /\ text <> ""
       /\ jmespath_search text (parsed_json self)
          = Ok (last_result (snd (dispatch ev self)))
       /\ is_None (last_result (snd (dispatch ev self))) = false.
Proof.
  destruct ev as [text|key|]; simpl; [| |auto].
  - unfold set_edit_text. on_edit_cases text self; auto;
      right; exists text; repeat split; try assumption;
      apply String.eqb_neq; assumption.
  - key_cases key self; auto.
Qed.

Lemma run_last_result_origin (events : list event) :
  forall self,
    last_result (snd (run events self)) = last_result self
    \/ exists text,
         In (EditChanged text) events /\ text <> ""
         /\ jmespath_search text (parsed_json self)
            = Ok (last_result (snd (run events self)))
         /\ is_None (last_result (snd (run events self))) = false.
Proof.
  induction events as [|ev events IH]; intros self; [auto|].
  simpl. pose proof (dispatch_last_result ev self) as Hstep.
  destruct (dispatch_keeps_document ev self) as [Hdoc _].
  destruct (dispatch ev self) as [[[]|e] s1]; simpl in *.
  - destruct (IH s1) as [Hsame|(text & Hin & Htext & Hsearch & Hsome)].
    + rewrite Hsame.
      destruct Hstep as [Hstep|(text & -> & Htext & Hsearch & Hsome)];
        [auto|].
      right. exists text. auto.
    + right. exists text. rewrite <- Hdoc. auto.
  - assert (Hend : last_result
                     (snd (if isinstance e ExitMainLoop
                           then (LoopExited, s1) else (LoopRaised e, s1)))
                   = last_result s1)
      by (destruct (isinstance e ExitMainLoop); reflexivity).
    rewrite Hend.
    destruct Hstep as [Hstep|(text & -> & Htext & Hsearch & Hsome)]; [auto|].
    right. exists text. auto.
Qed.

(** X5: after any sequence of events Last Result is what it was at the
    start, or a value other than [None] that the search returned for
    one of the texts typed, against the loaded document. *)
Theorem last_result_comes_from_a_search (events : list event)
    (self : JMESPathDisplay) :
  last_result (snd (run events self)) = last_result self
  \/ exists text,
       In (EditChanged text) events /\ text <> ""
       /\ jmespath_search text (parsed_json self)
          = Ok (last_result (snd (run events self)))
       /\ is_None (last_result (snd (run events self))) = false.
Proof. apply run_last_result_origin. Qed.




Lemma exit_is_an_error (e : exn) :
  isinstance e Exception = false -> isinstance e ExitMainLoop = false.
Proof. destruct e as [[] msg]; simpl; intros H; try reflexivity; discriminate. Qed.

Lemma TypeError_is_no_exit (e : exn) :
  exn_class e = TypeError -> isinstance e ExitMainLoop = false.
Proof. destruct e as [c msg]. simpl. intros ->. reflexivity. Qed.

Lemma dispatch_records_field (ev : event) (self : JMESPathDisplay) :
  field_is_recorded self ->
  field_is_recorded (snd (dispatch ev self))
  \/ exists e, fst (dispatch ev self) = Raise e /\ raised_by_edit e.
Proof.
  unfold field_is_recorded, raised_by_edit. intros Hinv.
  destruct ev as [text|key|]; simpl; [| |auto].
  - unfold set_edit_text. on_edit_cases text self; auto.
    + right. eexists. split; [reflexivity|]. left. reflexivity.
    + right. eexists. split; [reflexivity|]. right. eauto.
  - key_cases key self; auto.
Qed.

Lemma run_records_field (events : list event) :
  forall self,
    field_is_recorded self ->
    field_is_recorded (snd (run events self))
    \/ exists e, fst (run events self) = LoopRaised e /\ raised_by_edit e.
Proof.
  induction events as [|ev events IH]; intros self Hinv; [auto|].
  simpl. pose proof (dispatch_records_field ev self Hinv) as Hstep.
  destruct (dispatch ev self) as [[[]|e] s1]; simpl in *.
  - destruct Hstep as [Hstep|(e & Hraise & _)]; [auto|discriminate].
  - destruct Hstep as [Hstep|(e' & [= <-] & Hedit)].
    + destruct (isinstance e ExitMainLoop); auto.
    + right. exists e. split; [|exact Hedit].
      destruct Hedit as [Hclass|[Hbase _]].
      * rewrite (TypeError_is_no_exit _ Hclass). reflexivity.
      * rewrite (exit_is_an_error _ Hbase). reflexivity.
Qed.

(** X7: in a session started by [main], as long as the loop is waiting
    for input or has returned on the exit key, Last Expression is unset
    or is the very text of the input field: what "expression" mode
    writes at the end is what the field holds then. *)
Theorem last_expression_is_the_field (events : list event) (doc : json)
    (mode : string)
    (Hended : fst (run events (new_display doc mode)) = LoopWaiting
              \/ fst (run events (new_display doc mode)) = LoopExited) :
  field_is_recorded (snd (run events (new_display doc mode))).
Proof.
  destruct (run_records_field events (new_display doc mode))
    as [Hfield|(e & Hraised & _)]; [left; reflexivity|exact Hfield|].
  destruct Hended; congruence.
Qed.

Lemma edit_that_shows_nothing (text : string) (self : JMESPathDisplay) :
  shows_nothing (parsed_json self) text ->
  exists s1,
    dispatch (EditChanged text) self = (Ok tt, s1)
    /\ jmespath_result s1 = jmespath_result self
    /\ last_result s1 = last_result self
    /\ parsed_json s1 = parsed_json self
    /\ last_expression s1 = Some text.
Proof.
  intros [Htext Hsearch]. simpl. unfold set_edit_text, _on_edit.
  rewrite (eqb_nonempty _ Htext). simpl.
  destruct Hsearch as [Hnull|(e & Hraise & Herror)].
  - rewrite Hnull. simpl. eexists. split; [reflexivity|]. auto.
  - rewrite Hraise, Herror. eexists. split; [reflexivity|]. auto.
Qed.

(** X9: a run of edits, however long, of texts that are not empty and
    whose search returns [None] or raises an error is handled to its
    end and leaves the result pane and Last Result as they were: the
    last good result stays on show while one types on. *)
Theorem edits_that_show_nothing_keep_the_display (texts : list string) :
  forall self,
    Forall (shows_nothing (parsed_json self)) texts ->
    fst (run (map EditChanged texts) self) = LoopWaiting
    /\ jmespath_result (snd (run (map EditChanged texts) self))
       = jmespath_result self
    /\ last_result (snd (run (map EditChanged texts) self))
       = last_result self.
Proof.
  induction texts as [|text texts IH]; intros self Hall; [auto|].
  apply Forall_cons_iff in Hall as [Htext Hrest].
  destruct (edit_that_shows_nothing text self Htext)
    as (s1 & Hstep & Hpane & Hresult & Hdoc & _).
  change (run (map EditChanged (text :: texts)) self)
    with (match dispatch (EditChanged text) self with
          | (Ok _, s) => run (map EditChanged texts) s
          | (Raise e, s) =>
              if isinstance e ExitMainLoop then (LoopExited, s)
              else (LoopRaised e, s)
          end).
  rewrite Hstep. rewrite <- Hdoc in Hrest.
  destruct (IH s1 Hrest) as (Hend & Hpane' & Hresult').
  repeat split; congruence.
Qed.

Lemma run_app (before after : list event) :
  forall self,
    run (before ++ after) self
    = match run before self with
      | (LoopWaiting, s) => run after s
      | ended => ended
      end.
Proof.
  induction before as [|ev before IH]; intros self; [reflexivity|].
  simpl. destruct (dispatch ev self) as [[[]|e] s1].
  - apply IH.
  - destruct (isinstance e ExitMainLoop); reflexivity.
Qed.

Lemma dispatch_harmless (ev : event) (self : JMESPathDisplay) :
  valid_mode self ->
  harmless (parsed_json self) ev ->
  (fst (dispatch ev self) = Ok tt /\ valid_mode (snd (dispatch ev self)))
  \/ exists e, fst (dispatch ev self) = Raise e
               /\ isinstance e ExitMainLoop = true.
Proof.
  unfold valid_mode. intros Hmode Hev.
  destruct ev as [text|key|]; simpl in *; [| |contradiction].
  - unfold set_edit_text. on_edit_cases text self; auto; congruence.
  - unfold unhandled_input.
    destruct (String.eqb key "f5"); [right; eexists; split; reflexivity|].
    destruct (String.eqb key "ctrl ]");
      [left; split; [reflexivity|exact Hmode]|].
    destruct (String.eqb key "ctrl p");
      [|left; split; [reflexivity|exact Hmode]].
    destruct self as [doc mode lr le field left pane foot].
    unfold OUTPUT_MODES in *. simpl in Hmode.
    destruct Hmode as [<-|[<-|[<-|[]]]]; left;
      (split; [reflexivity|simpl; auto 6]).
Qed.

(** X20: no failing search ends the session: when the mode is one of
    [OUTPUT_MODES], no Ctrl-C arrives, and every text typed has a search
    that raises an error or returns [None] or JSON data, the loop either
    returns on the exit key or is still waiting for input; no exception
    leaves it. *)
Lemma run_survives_search_errors (events : list event) :
  forall self,
    valid_mode self ->
    Forall (harmless (parsed_json self)) events ->
    fst (run events self) = LoopExited \/ fst (run events self) = LoopWaiting.
Proof.
  induction events as [|ev events IH]; intros self Hmode Hall;
    [right; reflexivity|].
  apply Forall_cons_iff in Hall as [Hev Hrest].
  simpl. destruct (dispatch_keeps_document ev self) as [Hdoc _].
  destruct (dispatch_harmless ev self Hmode Hev)
    as [[Hok Hmode']|(e & Hraise & Hexit)];
    destruct (dispatch ev self) as [[[]|e'] s1]; simpl in *;
    try discriminate.
  - apply IH; [exact Hmode'|]. rewrite Hdoc. exact Hrest.
  - injection Hraise as <-. rewrite Hexit. left. reflexivity.
Qed.

Lemma keys_keep_nothing (keys : list string) :
  forall self,
    valid_mode self -> nothing_kept self ->
    Forall (fun key => key <> "ctrl ]") keys ->
    exists s,
      run (map KeyPress keys ++ [KeyPress "f5"]) self = (LoopExited, s)
      /\ nothing_kept s.
Proof.
  induction keys as [|key keys IH]; intros self Hmode Hkept Hkeys.
  - exists self. split; [reflexivity|exact Hkept].
  - apply Forall_cons_iff in Hkeys as [Hkey Hrest].
    change (run (map KeyPress (key :: keys) ++ [KeyPress "f5"]) self)
      with (match unhandled_input key self with
            | (Ok _, s) => run (map KeyPress keys ++ [KeyPress "f5"]) s
            | (Raise e, s) =>
                if isinstance e ExitMainLoop then (LoopExited, s)
                else (LoopRaised e, s)
            end).
    apply String.eqb_neq in Hkey.
    unfold unhandled_input. rewrite Hkey.
    destruct (String.eqb key "f5"); [exists self; auto|].
    destruct (String.eqb key "ctrl p"); [|apply IH; assumption].
    destruct self as [doc mode lr le field left pane foot].
    unfold valid_mode, nothing_kept, OUTPUT_MODES in *. simpl in *.
    destruct Hmode as [<-|[<-|[<-|[]]]]; simpl; apply IH;
      unfold valid_mode, nothing_kept; simpl; auto 6.
Qed.

(** X8: a session in which nothing is typed and the clear key is not
    pressed, ended by the exit key, writes nothing in any output mode:
    [main] returns 0 and leaves standard output, the error stream and
    every file, the output file included, as loading left them. *)
Theorem untouched_session_writes_nothing (args : Namespace)
    (keys : list string) (w w1 : World) (doc : json)
    (Hmode : In (arg_output_mode args) OUTPUT_MODES)
    (Hkeys : Forall (fun key => key <> "ctrl ]") keys)
    (Hload : _load_input_json (arg_input_json args) w = (Ok doc, w1)) :
  exists display,
    main_parsed args (map KeyPress keys ++ [KeyPress "f5"]) w
    = (Returned 0, Some display, w1)
    /\ nothing_kept display.
Proof.
  destruct (keys_keep_nothing keys (new_display doc (arg_output_mode args)))
    as (s & Hrun & Hkept); [exact Hmode|split; reflexivity|exact Hkeys|].
  exists s. split; [|exact Hkept].
  unfold main_parsed. rewrite Hload, Hrun. simpl.
  destruct Hkept as [Hresult Hexpr].
  unfold display_output. rewrite Hresult, Hexpr. simpl.
  rewrite andb_false_r.
  destruct (String.eqb (output_mode s) "expression"); reflexivity.
Qed.

(** ** More on the pipe *)

Lemma lowest_free_le (t : list (option ofd)) :
  (lowest_free t <= length t)%nat.
Proof. induction t as [|[f|] t IH]; simpl; lia. Qed.

Lemma install_lookup_ne (f : ofd) (t : list (option ofd)) (i : nat) :
  i <> lowest_free t -> install f t !! i = t !! i.
Proof.
  intros Hne. unfold install.
  destruct (lowest_free t <? length t)%nat eqn:Hlt.
  - apply list_lookup_insert_ne. congruence.
  - apply Nat.ltb_ge in Hlt. pose proof (lowest_free_le t) as Hle.
    destruct (decide (i < length t)%nat) as [Hin|Hout].
    + apply lookup_app_l. exact Hin.
    + rewrite !lookup_ge_None_2; [reflexivity|lia|rewrite length_app; simpl; lia].
Qed.

Lemma delivered_all (q : list string) :
  Forall (fun bs => bs <> "") q -> delivered q = q /\ undelivered q = [].
Proof.
  induction 1 as [|bs q Hbs _ [IHd IHu]]; [auto|].
  simpl. rewrite (eqb_nonempty _ Hbs), IHd, IHu. auto.
Qed.

(** The whole of the pipe path, for a pipe on descriptor 0 and a
    controlling terminal. *)
Lemma load_json_from_pipe_world (w : World) :
  fdtable w !! sys_stdin_fileno = Some (Some OPipe) ->
  ctty w = true ->
  _load_json_from_pipe w
  = (match decode (join (delivered (pipe_in w))) with
     | Ok text => json_loads text
     | Raise e => Raise e
     end,
     mkWorld (Some OTty :: install OPipe (tail (fdtable w)))
             (undelivered (pipe_in w)) (tty_in w) (ctty w) (files w)
             (unwritable w) (stdout w) (stderr w)
             (syslog w
              ++ [SysDup 0 (lowest_free (fdtable w)); SysClose 0; SysOpenTty 0]
              ++ map (SysRead (lowest_free (fdtable w))) (delivered (pipe_in w))
              ++ [SysRead (lowest_free (fdtable w)) ""])).
Proof.
  destruct w as [t pin tin ct fs uw out err lg]. simpl. intros Hpipe ->.
  destruct t as [|[[|]|] t]; try discriminate. clear Hpipe. simpl tail.
  set (d := lowest_free (Some OPipe :: t)).
  set (w1 := mkWorld (Some OPipe :: install OPipe t) pin tin true fs uw
                     out err (lg ++ [SysDup 0 d])).
  set (w2 := mkWorld (None :: install OPipe t) pin tin true fs uw
                     out err (lg ++ [SysDup 0 d; SysClose 0])).
  set (w3 := mkWorld (Some OTty :: install OPipe t) pin tin true fs uw
                     out err (lg ++ [SysDup 0 d; SysClose 0; SysOpenTty 0])).
  assert (Hd : fdtable w3 !! d = Some (Some OPipe))
    by (unfold d; simpl; apply install_lookup).
  assert (H1 : os_dup 0 (mkWorld (Some OPipe :: t) pin tin true fs uw
                                 out err lg) = (Ok d, w1)).
  { unfold os_dup, w1. simpl. rewrite install_cons. reflexivity. }
  assert (H2 : os_close 0 w1 = (Ok tt, w2)).
  { unfold os_close, w1, w2, log. simpl. rewrite <- app_assoc. reflexivity. }
  assert (H3 : os_open_ctermid w2 = (Ok 0%nat, w3)).
  { unfold os_open_ctermid, w2, w3, log. simpl.
    rewrite <- app_assoc. reflexivity. }
  assert (H4 : read_all (S (length (pending d w3))) d "" w3
               = (Ok (join (delivered pin)),
                  mkWorld (Some OTty :: install OPipe t) (undelivered pin)
                          tin true fs uw out err
                          (lg ++ [SysDup 0 d; SysClose 0; SysOpenTty 0]
                              ++ map (SysRead d) (delivered pin)
                              ++ [SysRead d ""]))).
  { rewrite (read_all_pipe pin); [|exact Hd|reflexivity|].
    - unfold w3. simpl. rewrite <- app_assoc. reflexivity.
    - unfold pending. rewrite Hd. simpl. lia. }
  unfold _load_json_from_pipe, sys_stdin_fileno.
  rewrite (bind_ok _ _ _ _ _ H1), (bind_ok _ _ _ _ _ H2),
    (bind_ok _ _ _ _ _ H3).
  rewrite (bind_ok
             (fun w => read_all (S (length (pending d w))) d "" w)
             _ _ _ _ H4).
  unfold bind, lift.
  destruct (decode (join (delivered pin))) as [text|e]; [|reflexivity].
  destruct (json_loads text); reflexivity.
Qed.

(** X11: after the pipe path the duplicate descriptor is still open on
    the pipe: the only descriptor ever closed is 0, which now is the
    terminal, and every other descriptor is what it was. *)
Theorem pipe_load_keeps_the_duplicate_open (w : World)
    (Hpipe : fdtable w !! sys_stdin_fileno = Some (Some OPipe))
    (Hctty : ctty w = true) :
  let dup_fd := lowest_free (fdtable w) in
  let w' := snd (_load_json_from_pipe w) in
  dup_fd <> sys_stdin_fileno
  /\ fdtable w !! dup_fd <> Some (Some OPipe)
  /\ fdtable w' !! dup_fd = Some (Some OPipe)
  /\ List.filter is_close (since (syslog w) (syslog w'))
     = [SysClose sys_stdin_fileno]
  /\ forall fd,
       fd <> sys_stdin_fileno -> fd <> dup_fd ->
       fdtable w' !! fd = fdtable w !! fd.
Proof.
  cbv zeta. rewrite (load_json_from_pipe_world w Hpipe Hctty). simpl.
  rewrite since_app.
  destruct (fdtable w) as [|[[|]|] t] eqn:Ht; try discriminate. simpl.
  split; [discriminate|]. split.
  { clear. induction t as [|[f|] t IH]; simpl; [discriminate|exact IH|discriminate]. }
  split; [apply install_lookup|]. split.
  - assert (Hreads : forall l,
               List.filter is_close
                 (map (SysRead (S (lowest_free t))) l
                  ++ [SysRead (S (lowest_free t)) ""]) = []).
    { induction l as [|c l IH]; [reflexivity|exact IH]. }
    rewrite Hreads. reflexivity.
  - intros [|fd] Hzero Hdup; [contradiction|]. simpl.
    apply install_lookup_ne. congruence.
Qed.

(** X12: how the kernel cuts the piped data into reads does not matter:
    two pipes that deliver the same bytes, in whatever pieces, load the
    same document (or raise the same exception), and each is read to
    the end. *)
Theorem pipe_chunking_does_not_matter (w1 w2 : World)
    (Hpipe1 : fdtable w1 !! sys_stdin_fileno = Some (Some OPipe))
    (Hpipe2 : fdtable w2 !! sys_stdin_fileno = Some (Some OPipe))
    (Hctty1 : ctty w1 = true) (Hctty2 : ctty w2 = true)
    (Hfull1 : Forall (fun bs => bs <> "") (pipe_in w1))
    (Hfull2 : Forall (fun bs => bs <> "") (pipe_in w2))
    (Hsame : join (pipe_in w1) = join (pipe_in w2)) :
  fst (_load_json_from_pipe w1) = fst (_load_json_from_pipe w2)
  /\ fst (_load_json_from_pipe w1)
     = match decode (join (pipe_in w1)) with
       | Ok text => json_loads text
       | Raise e => Raise e
       end
  /\ pipe_in (snd (_load_json_from_pipe w1)) = []
  /\ pipe_in (snd (_load_json_from_pipe w2)) = [].
Proof.
  rewrite (load_json_from_pipe_world w1 Hpipe1 Hctty1),
    (load_json_from_pipe_world w2 Hpipe2 Hctty2). simpl.
  destruct (delivered_all _ Hfull1) as [-> ->].
  destruct (delivered_all _ Hfull2) as [-> ->].
  rewrite Hsame. auto.
Qed.

(** X10: without a controlling terminal the pipe path raises an
    [OSError] after descriptor 0 has been closed and before anything is
    read: the data stays in the pipe, descriptor 0 stays closed, and
    [main], which catches [ValueError] only, ends with that exception. *)
Theorem pipe_load_without_terminal (w : World)
    (Hpipe : fdtable w !! sys_stdin_fileno = Some (Some OPipe))
    (Hnotty : ctty w = false) :
  exists e,
    isinstance e OSError = true
    /\ isinstance e ValueError = false
    /\ fst (_load_json_from_pipe w) = Raise e
    /\ fdtable (snd (_load_json_from_pipe w)) !! sys_stdin_fileno = Some None
    /\ pipe_in (snd (_load_json_from_pipe w)) = pipe_in w
    /\ List.filter is_read
         (since (syslog w) (syslog (snd (_load_json_from_pipe w)))) = []
    /\ forall args events,
         arg_input_json args = None ->
         fst (main_parsed args events w) = (Uncaught e, None).
Proof.
  exists (Exn OSError "[Errno 6] No such device or address: '/dev/tty'").
  destruct w as [t pin tin ct fs uw out err lg]. simpl in Hpipe, Hnotty.
  subst ct. destruct t as [|[[|]|] t]; try discriminate. clear Hpipe.
  assert (Hrun : _load_json_from_pipe
                   (mkWorld (Some OPipe :: t) pin tin false fs uw out err lg)
                 = (Raise (Exn OSError
                             "[Errno 6] No such device or address: '/dev/tty'"),
                    mkWorld (None :: install OPipe t) pin tin false fs uw
                            out err
                            (lg ++ [SysDup 0 (S (lowest_free t)); SysClose 0]))).
  { unfold _load_json_from_pipe, sys_stdin_fileno, bind, os_dup, os_close,
      os_open_ctermid, log. simpl. rewrite install_cons. simpl.
    rewrite <- app_assoc. reflexivity. }
  split; [reflexivity|]. split; [reflexivity|].
  rewrite Hrun. simpl. rewrite since_app. simpl.
  repeat split.
  intros args events Hnone. unfold main_parsed. rewrite Hnone.
  unfold _load_input_json, bind, os_isatty. simpl. rewrite Hrun. reflexivity.
Qed.

(** ** What main writes *)

Lemma ko_ret {A : Type} (a : A) : keeps_outputs (ret a).
Proof. intros w. auto. Qed.

Lemma ko_lift {A : Type} (r : result A) : keeps_outputs (lift r).
Proof. intros w. auto. Qed.

Lemma ko_bind {A B : Type} (m : io A) (k : A -> io B) :
  keeps_outputs m -> (forall a, keeps_outputs (k a)) ->
  keeps_outputs (bind m k).
Proof.
  intros Hm Hk w. destruct (Hm w) as (Hout & Herr & Hfiles).
  unfold bind. destruct (m w) as [[a|e] w1]; simpl in *; [|auto].
  destruct (Hk a w1) as (Hout' & Herr' & Hfiles').
  repeat split; congruence.
Qed.

Lemma ko_os_isatty (fd : nat) : keeps_outputs (os_isatty fd).
Proof.
  intros w. unfold os_isatty.
  destruct (fdtable w !! fd) as [[[|]|]|]; auto.
Qed.

Lemma ko_os_dup (fd : nat) : keeps_outputs (os_dup fd).
Proof.
  intros w. unfold os_dup. destruct (fdtable w !! fd) as [[f|]|]; auto.
Qed.

Lemma ko_os_close (fd : nat) : keeps_outputs (os_close fd).
Proof.
  intros w. unfold os_close. destruct (fdtable w !! fd) as [[f|]|]; auto.
Qed.

Lemma ko_os_open_ctermid : keeps_outputs os_open_ctermid.
Proof. intros w. unfold os_open_ctermid. destruct (ctty w); auto. Qed.

Lemma ko_os_read (fd : nat) : keeps_outputs (os_read fd).
Proof.
  intros w. unfold os_read.
  destruct (fdtable w !! fd) as [[[|]|]|]; auto.
  - destruct (pipe_in w); auto.
  - destruct (tty_in w); auto.
Qed.

Lemma ko_read_file (path : string) : keeps_outputs (read_file path).
Proof. intros w. unfold read_file. destruct (files w !! path); auto. Qed.

Lemma ko_read_all (rounds stdin : nat) :
  forall buf, keeps_outputs (read_all rounds stdin buf).
Proof.
  induction rounds as [|rounds IH]; intros buf; simpl.
  - apply ko_ret.
  - apply ko_bind; [apply ko_os_read|].
    intros bs. destruct (String.eqb bs ""); [apply ko_ret|apply IH].
Qed.

Lemma ko_load_input_json (filename : option string) :
  keeps_outputs (_load_input_json filename).
Proof.
  unfold _load_input_json. destruct filename as [path|].
  - apply ko_bind; [apply ko_read_file|intros content].
    apply ko_bind; [apply ko_lift|intros text; apply ko_lift].
  - apply ko_bind; [apply ko_os_isatty|intros tty].
    destruct tty; simpl; [apply ko_ret|].
    unfold _load_json_from_pipe.
    apply ko_bind; [apply ko_os_dup|intros stdin].
    apply ko_bind; [apply ko_os_close|intros _].
    apply ko_bind; [apply ko_os_open_ctermid|intros _].
    apply ko_bind.
    + intros w. apply (ko_read_all _ stdin "" w).
    + intros data.
      apply ko_bind; [apply ko_lift|intros text; apply ko_lift].
Qed.

Lemma display_output_finalize (filename : option string)
    (self : JMESPathDisplay) (w : World) :
  display_output filename self w
  = match finalize_text (output_mode self) (last_result self)
                        (last_expression self) with
    | Ok (Some text) => write_destination filename text w
    | Ok None => (Ok tt, w)
    | Raise e => (Raise e, w)
    end.
Proof.
  unfold display_output, finalize_text, write_destination, bind, lift.
  destruct (String.eqb (output_mode self) "result") eqn:Hmode.
  - apply String.eqb_eq in Hmode. rewrite Hmode. simpl.
    destruct (is_None (last_result self)); simpl; [reflexivity|].
    destruct (_json_dumps (last_result self)); reflexivity.
  - simpl.
    destruct (String.eqb (output_mode self) "expression");
      destruct (last_expression self); reflexivity.
Qed.

Lemma display_output_streams (filename : option string)
    (self : JMESPathDisplay) (w : World) :
  stderr (snd (display_output filename self w)) = stderr w.
Proof.
  rewrite display_output_finalize.
  destruct (finalize_text _ _ _) as [[text|]|e]; [|reflexivity|reflexivity].
  destruct filename as [path|]; simpl; [|reflexivity].
  unfold write_file. destruct (decide (path ∈ unwritable w)); reflexivity.
Qed.

(** X13: when [main], command line and all, returns, it returns 0 or
    1.  With 0 nothing was written to the error stream; with 1 the
    error stream grew by a message and standard output and all files
    are untouched. *)
Theorem main_writes_one_stream (argv : list string) (events : list event)
    (w : World) :
  let w' := snd (main argv events w) in
  match fst (fst (main argv events w)) with
  | Returned code =>
      (code = 0 /\ stderr w' = stderr w)
      \/ (code = 1 /\ stdout w' = stdout w /\ files w' = files w
          /\ exists message, message <> "" /\ stderr w' = stderr w ++ message)
  | _ => True
  end.
Proof.
  cbv zeta. unfold main.
  destruct (parse_args argv) as [args|code out err]; [|exact I].
  unfold main_parsed.
  destruct (ko_load_input_json (arg_input_json args) w)
    as (Hout & Herr & Hfiles).
  destruct (_load_input_json (arg_input_json args) w) as [[doc|e] w1];
    simpl in *.
  - destruct (run events (new_display doc (arg_output_mode args)))
      as [ended display].
    pose proof (display_output_streams (arg_output_file args) display w1)
      as Herr'.
    destruct ended as [|e|]; [| |exact I].
    + destruct (display_output (arg_output_file args) display w1)
        as [[[]|e] w2] eqn:Hwrite; simpl in *; [|exact I].
      left. split; [reflexivity|congruence].
    + destruct (isinstance e KeyboardInterrupt); [|exact I].
      destruct (display_output (arg_output_file args) display w1)
        as [[[]|e'] w2] eqn:Hwrite; simpl in *; [|exact I].
      left. split; [reflexivity|congruence].
  - destruct (isinstance e ValueError); simpl; [|exact I].
    right. repeat split; try assumption.
    exists ("Unable to load the input JSON: " ++ exn_str e ++ nl ++ nl).
    split; [discriminate|]. rewrite Herr. reflexivity.
Qed.

Lemma error_is_no_interrupt (e : exn) :
  isinstance e Exception = true -> isinstance e KeyboardInterrupt = false.
Proof. destruct e as [[] msg]; simpl; intros H; try reflexivity; discriminate. Qed.

(** C6: run as a script with a command line that parses, the program
    ends with exit status 1, a diagnostic on the error stream, nothing
    on standard output and no display created whenever loading the
    document raises an error: [main]'s own message for a [ValueError]
    (the bytes do not decode, the text does not parse), the
    interpreter's traceback for any other, such as the
    [FileNotFoundError] of a file name that cannot be opened.  When the
    loop ends by the exit key or by a keyboard interrupt and the final
    output is written, the exit status is 0. *)
Theorem load_failure_exits_1_normal_exit_0 (argv : list string)
    (args : Namespace) (events : list event) (w : World)
    (Hargs : parse_args argv = Parsed args) :
  (forall e w1,
      _load_input_json (arg_input_json args) w = (Raise e, w1) ->
      isinstance e Exception = true ->
      exists diagnostic,
        diagnostic <> ""
        /\ script argv events w
           = (Exit 1, set_stderr (stderr w ++ diagnostic) w1)
        /\ stdout w1 = stdout w
        /\ snd (fst (main argv events w)) = None)
  /\ (forall path,
        arg_input_json args = Some path ->
        files w !! path = None ->
        exists e,
          exn_class e = FileNotFoundError
          /\ script argv events w
             = (Exit 1, set_stderr (stderr w ++ traceback_text e) w)
          /\ snd (fst (main argv events w)) = None)
  /\ (forall doc w1 ended display w2,
        _load_input_json (arg_input_json args) w = (Ok doc, w1) ->
        run events (new_display doc (arg_output_mode args))
        = (ended, display) ->
        (ended = LoopExited
         \/ exists e, ended = LoopRaised e
                      /\ isinstance e KeyboardInterrupt = true) ->
        display_output (arg_output_file args) display w1 = (Ok tt, w2) ->
        script argv events w = (Exit 0, w2)
        /\ fst (main argv events w) = (Returned 0, Some display)).
Proof.
  split; [|split].
  - intros e w1 Hload Herror.
    destruct (ko_load_input_json (arg_input_json args) w)
      as (Hout & Herr & _).
    rewrite Hload in Hout, Herr. simpl in Hout, Herr.
    unfold script, main, main_parsed. rewrite Hargs, Hload.
    destruct (isinstance e ValueError); simpl.
    + exists ("Unable to load the input JSON: " ++ exn_str e ++ nl ++ nl).
      rewrite Herr. repeat split; [discriminate|assumption].
    + rewrite (error_is_no_interrupt _ Herror).
      exists (traceback_text e).
      rewrite Herr. repeat split; [discriminate|assumption].
  - intros path Hpath Hmissing.
    exists (Exn FileNotFoundError
                ("[Errno 2] No such file or directory: '" ++ path ++ "'")).
    unfold script, main, main_parsed. rewrite Hargs, Hpath.
    unfold _load_input_json, bind, read_file. rewrite Hmissing.
    repeat split.
  - intros doc w1 ended display w2 Hload Hrun Hended Hwrite.
    unfold script, main, main_parsed. rewrite Hargs, Hload, Hrun.
    destruct Hended as [->|(e & -> & Hkbd)]; [|rewrite Hkbd];
      rewrite Hwrite; split; reflexivity.
Qed.

(** X16: when the session ends normally with a text to write and the
    output file cannot be opened for writing, [main] ends with the
    [OSError] of the failed open, no exit code is returned and nothing
    is written anywhere, standard output included. *)
Theorem unwritable_output_file_is_fatal (args : Namespace)
    (events : list event) (w w1 : World) (doc : json)
    (display : JMESPathDisplay) (path text : string)
    (Hload : _load_input_json (arg_input_json args) w = (Ok doc, w1))
    (Hrun : run events (new_display doc (arg_output_mode args))
            = (LoopExited, display))
    (Htext : finalize_text (output_mode display) (last_result display)
                           (last_expression display) = Ok (Some text))
    (Hfile : arg_output_file args = Some path)
    (Hdenied : path ∈ unwritable w1) :
  exists e,
    isinstance e OSError = true
    /\ main_parsed args events w = (Uncaught e, Some display, w1).
Proof.
  exists (Exn PermissionError
              ("[Errno 13] Permission denied: '" ++ path ++ "'")).
  split; [reflexivity|].
  unfold main_parsed. rewrite Hload, Hrun. simpl.
  rewrite display_output_finalize, Htext, Hfile. simpl.
  unfold write_file. destruct (decide (path ∈ unwritable w1));
    [reflexivity|contradiction].
Qed.

(** ** What the final output is *)

Lemma is_None_JNull (v : pyobj) : is_None v = true -> v = JNull.
Proof. destruct v; simpl; congruence. Qed.

Lemma main_parsed_returned (args : Namespace) (events : list event)
    (w w1 : World) (doc : json) (code : Z) :
  _load_input_json (arg_input_json args) w = (Ok doc, w1) ->
  fst (fst (main_parsed args events w)) = Returned code ->
  let ended := fst (run events (new_display doc (arg_output_mode args))) in
  let final := snd (run events (new_display doc (arg_output_mode args))) in
  display_output (arg_output_file args) final w1
  = (Ok tt, snd (main_parsed args events w))
  /\ (ended = LoopExited
      \/ exists e, ended = LoopRaised e
                   /\ isinstance e KeyboardInterrupt = true).
Proof.
  intros Hload. cbv zeta. unfold main_parsed. rewrite Hload.
  destruct (run events (new_display doc (arg_output_mode args)))
    as [ended final]. simpl.
  destruct ended as [|e|]; simpl; [| |discriminate].
  - destruct (display_output (arg_output_file args) final w1)
      as [[[]|e] w2]; simpl; [auto|discriminate].
  - destruct (isinstance e KeyboardInterrupt) eqn:Hkbd; simpl; [|discriminate].
    destruct (display_output (arg_output_file args) final w1)
      as [[[]|e'] w2]; simpl; [eauto|discriminate].
Qed.

(** X17: when [main] returns 0 with "result" as the final mode and no
    output file, either nothing was kept and nothing is written, or
    what is appended to standard output is the serialization of a value
    that the search returned, against the loaded document, for one of
    the texts typed. *)
Theorem result_output_is_a_search_result (args : Namespace)
    (events : list event) (w w1 : World) (doc : json)
    (Hload : _load_input_json (arg_input_json args) w = (Ok doc, w1))
    (Hfile : arg_output_file args = None)
    (Hzero : fst (fst (main_parsed args events w)) = Returned 0)
    (Hmode : output_mode
               (snd (run events (new_display doc (arg_output_mode args))))
             = "result") :
  let final := snd (run events (new_display doc (arg_output_mode args))) in
  (last_result final = JNull /\ snd (main_parsed args events w) = w1)
  \/ exists text j,
       In (EditChanged text) events /\ text <> ""
       /\ jmespath_search text doc = Ok (last_result final)
       /\ to_json (last_result final) = Some j
       /\ stdout (snd (main_parsed args events w))
          = stdout w1 ++ json_dumps j
       /\ stderr (snd (main_parsed args events w)) = stderr w1
       /\ files (snd (main_parsed args events w)) = files w1.
Proof.
  cbv zeta.
  destruct (main_parsed_returned args events w w1 doc 0 Hload Hzero)
    as [Hwrite _].
  pose proof (run_last_result_origin events
                (new_display doc (arg_output_mode args))) as Horigin.
  simpl in Horigin.
  rewrite display_output_finalize, Hfile in Hwrite.
  unfold finalize_text in Hwrite. rewrite Hmode in Hwrite. simpl in Hwrite.
  destruct (is_None (last_result
                       (snd (run events
                               (new_display doc (arg_output_mode args))))))
    eqn:Hnone.
  - left. split; [apply is_None_JNull; exact Hnone|congruence].
  - unfold _json_dumps in Hwrite.
    destruct (to_json (last_result
                         (snd (run events
                                 (new_display doc (arg_output_mode args))))))
      as [j|] eqn:Hjson; [|discriminate].
    simpl in Hwrite. injection Hwrite as Hworld.
    destruct Horigin as [Hsame|(text & Hin & Htext & Hsearch & _)].
    + rewrite Hsame in Hnone. discriminate.
    + right. exists text, j. rewrite <- Hworld.
      split; [exact Hin|]. split; [exact Htext|]. split; [exact Hsearch|].
      split; [reflexivity|]. split; [reflexivity|]. split; reflexivity.
Qed.

(** X18: when the library raises errors only and [main] returns 0 with
    "expression" as the final mode and no output file, either nothing
    was ever typed and nothing is written, or what is appended to
    standard output is the text the input field holds at the end. *)
Theorem expression_output_is_the_field
    (Herrors : search_raises_errors_only) (args : Namespace)
    (events : list event) (w w1 : World) (doc : json)
    (Hload : _load_input_json (arg_input_json args) w = (Ok doc, w1))
    (Hfile : arg_output_file args = None)
    (Hzero : fst (fst (main_parsed args events w)) = Returned 0)
    (Hmode : output_mode
               (snd (run events (new_display doc (arg_output_mode args))))
             = "expression") :
  let final := snd (run events (new_display doc (arg_output_mode args))) in
  (last_expression final = None /\ snd (main_parsed args events w) = w1)
  \/ (last_expression final = Some (input_expr final)
      /\ stdout (snd (main_parsed args events w))
         = stdout w1 ++ input_expr final
      /\ stderr (snd (main_parsed args events w)) = stderr w1
      /\ files (snd (main_parsed args events w)) = files w1).
Proof.
  cbv zeta.
  destruct (main_parsed_returned args events w w1 doc 0 Hload Hzero)
    as [Hwrite Hended].
  assert (Hfield : field_is_recorded
                     (snd (run events
                             (new_display doc (arg_output_mode args))))).
  { destruct (run_records_field events
                (new_display doc (arg_output_mode args)))
      as [Hfield|(e & Hraised & Hedit)]; [left; reflexivity|exact Hfield|].
    exfalso. destruct Hended as [Hexit|(e' & Hraised' & Hkbd)];
      [congruence|].
    rewrite Hraised in Hraised'. injection Hraised' as <-.
    destruct Hedit as [Hclass|(Hbase & text & doc' & Hsearch)].
    - rewrite (TypeError_is_no_interrupt _ Hclass) in Hkbd. discriminate.
    - rewrite (Herrors _ _ _ Hsearch) in Hbase. discriminate. }
  rewrite display_output_finalize, Hfile in Hwrite.
  unfold finalize_text in Hwrite. rewrite Hmode in Hwrite. simpl in Hwrite.
  destruct Hfield as [Hnone|Hsome].
  - left. rewrite Hnone in Hwrite |- *. split; [reflexivity|congruence].
  - right. rewrite Hsome in Hwrite |- *. simpl in Hwrite.
    injection Hwrite as Hworld. rewrite <- Hworld.
    split; [reflexivity|]. split; [reflexivity|]. split; reflexivity.
Qed.

(** X19: a Ctrl-C ends the session as the exit key does: the same exit
    code, the same final output, and whatever event would follow is
    left unhandled. *)
Theorem interrupt_exits_like_the_exit_key (args : Namespace)
    (before after after' : list event) (w : World) :
  main_parsed args (before ++ Interrupt :: after) w
  = main_parsed args (before ++ KeyPress "f5" :: after') w.
Proof.
  unfold main_parsed.
  destruct (_load_input_json (arg_input_json args) w) as [[doc|e] w1];
    [|reflexivity].
  rewrite !run_app.
  destruct (run before (new_display doc (arg_output_mode args)))
    as [[|e|] s]; reflexivity.
Qed.

End Jpterm.


(** ** The program on concrete inputs *)

(** Typing [a] against [{a: 1, b: [1, 2, 3]}] shows 1, and leaving with
    the exit key in "result" mode prints it. *)
Example scenario_field_a :
  main_parsed toy_dumps toy_search toy_get_tokens toy_decode toy_loads
       (mkArgs (Some "doc.json") "result" None)
       [EditChanged "a"; KeyPress "f5"]
       (set_files {[ "doc.json" := "1" ]} terminal_world)
  = (Returned 0,
     Some (snd (run toy_dumps toy_search toy_get_tokens [EditChanged "a"]
                    (new_display toy_dumps toy_get_tokens (JInt 1) "result"))),
     log (SysOpenFile "doc.json" "r")
         (set_files {[ "doc.json" := "1" ]} terminal_world)).
Proof. vm_compute. reflexivity. Qed.

(** Three presses of the mode key come back to the mode one started in. *)
Example output_mode_cycles :
  output_mode
    (snd (run toy_dumps toy_search toy_get_tokens
              [KeyPress "ctrl p"; KeyPress "ctrl p"; KeyPress "ctrl p"]
              (new_display toy_dumps toy_get_tokens scenario_json "result")))
  = "result".
Proof. vm_compute. reflexivity. Qed.

(** The three sources: a named file wins over piped data, piped data
    over the sample. *)
Example file_wins_over_pipe :
  _load_input_json toy_decode toy_loads (Some "doc.json")
    (set_files {[ "doc.json" := "1" ]} (piped_world ["null"]))
  = (Ok (JInt 1),
     log (SysOpenFile "doc.json" "r")
         (set_files {[ "doc.json" := "1" ]} (piped_world ["null"]))).
Proof. vm_compute. reflexivity. Qed.

Example pipe_wins_over_sample :
  fst (_load_input_json toy_decode toy_loads None (piped_world ["null"]))
  = Ok JNull.
Proof. vm_compute. reflexivity. Qed.

Example sample_on_a_terminal :
  _load_input_json toy_decode toy_loads None terminal_world
  = (Ok SAMPLE_JSON, terminal_world).
Proof. vm_compute. reflexivity. Qed.

(** After the pipe has been loaded, descriptor 0 is the terminal and the
    clear key is handled. *)
Example pipe_then_clear_key :
  fdtable (snd (main_parsed toy_dumps toy_search toy_get_tokens toy_decode toy_loads
                     (mkArgs None "result" None)
                     [KeyPress "ctrl ]"; KeyPress "f5"]
                     (piped_world ["[1, 2"; ", 3]"])))
    !! sys_stdin_fileno
  = Some (Some OTty)
  /\ fst (fst (main_parsed toy_dumps toy_search toy_get_tokens toy_decode toy_loads
                    (mkArgs None "result" None)
                    [KeyPress "ctrl ]"; KeyPress "f5"]
                    (piped_world ["[1, 2"; ", 3]"])))
     = Returned 0.
Proof. vm_compute. split; reflexivity. Qed.

(** C1 as stated fails: after [a] has been typed Last Expression is
    "a"; the empty edit that follows, and the clear key, leave it "". *)
Lemma empty_edit_overwrites_last_expression :
  last_expression
    (snd (run toy_dumps toy_search toy_get_tokens [EditChanged "a"]
              (new_display toy_dumps toy_get_tokens scenario_json "result")))
  = Some "a"
  /\ last_expression
       (snd (run toy_dumps toy_search toy_get_tokens
                 [EditChanged "a"; EditChanged ""]
                 (new_display toy_dumps toy_get_tokens scenario_json "result")))
     = Some ""
  /\ last_expression
       (snd (run toy_dumps toy_search toy_get_tokens
                 [EditChanged "a"; KeyPress "ctrl ]"]
                 (new_display toy_dumps toy_get_tokens scenario_json "result")))
     = Some "".
Proof. vm_compute. repeat split; reflexivity. Qed.

(** [failed_search_leaves_display] at the edit from [a] to [a.]. *)
Lemma failed_search_leaves_display_witness :
  "a." <> ""
  /\ toy_search "a." scenario_json = Raise (Exn ParseError "Incomplete expression")
  /\ fst (_on_edit toy_dumps toy_search toy_get_tokens "a."
            (snd (run toy_dumps toy_search toy_get_tokens [EditChanged "a"]
                      (new_display toy_dumps toy_get_tokens scenario_json
                                   "result"))))
     = Ok tt
  /\ last_result
       (snd (_on_edit toy_dumps toy_search toy_get_tokens "a."
               (snd (run toy_dumps toy_search toy_get_tokens [EditChanged "a"]
                         (new_display toy_dumps toy_get_tokens scenario_json
                                      "result")))))
     = JInt 1.
Proof.
  split; [discriminate|]. split; [reflexivity|].
  pose proof (failed_search_leaves_display toy_dumps toy_search toy_get_tokens
                "a."
                (snd (run toy_dumps toy_search toy_get_tokens [EditChanged "a"]
                          (new_display toy_dumps toy_get_tokens scenario_json
                                       "result")))
                (Exn ParseError "Incomplete expression")
                ltac:(discriminate) eq_refl eq_refl) as H.
  cbv zeta in H. destruct H as (Hok & _ & Hresult & _).
  split; [exact Hok|]. rewrite Hresult. reflexivity.
Defined.

(** [null_result_keeps_last_result_and_pane] at the edit from [a] to [z],
    a field the document does not have. *)
Lemma null_result_keeps_pane_witness :
  toy_search "z" scenario_json = Ok JNull
  /\ last_result
       (snd (_on_edit toy_dumps toy_search toy_get_tokens "z"
               (snd (run toy_dumps toy_search toy_get_tokens [EditChanged "a"]
                         (new_display toy_dumps toy_get_tokens scenario_json
                                      "result")))))
     = JInt 1.
Proof.
  split; [reflexivity|].
  rewrite (proj1 (null_result_keeps_last_result_and_pane
                    toy_dumps toy_search toy_get_tokens "z"
                    (snd (run toy_dumps toy_search toy_get_tokens
                              [EditChanged "a"]
                              (new_display toy_dumps toy_get_tokens
                                           scenario_json "result")))
                    ltac:(discriminate) eq_refl)).
  reflexivity.
Defined.

(** [value_result_is_kept_and_shown] at the first edit, [a]. *)
Lemma value_result_is_kept_witness :
  toy_search "a" scenario_json = Ok (JInt 1)
  /\ last_result
       (snd (_on_edit toy_dumps toy_search toy_get_tokens "a"
               (new_display toy_dumps toy_get_tokens scenario_json "result")))
     = JInt 1
  /\ footer
       (snd (_on_edit toy_dumps toy_search toy_get_tokens "a"
               (new_display toy_dumps toy_get_tokens scenario_json "result")))
     = "Status: success".
Proof.
  split; [reflexivity|].
  pose proof (value_result_is_kept_and_shown toy_dumps toy_search
                toy_get_tokens "a"
                (new_display toy_dumps toy_get_tokens scenario_json "result")
                (JInt 1) (JInt 1) ltac:(discriminate) eq_refl eq_refl eq_refl)
    as H.
  cbv zeta in H. destruct H as (_ & Hresult & Hfooter & _).
  split; assumption.
Defined.

(** [unserializable_result_leaves_the_handler] at [&a], typed while 1
    is on show: the handler raises, 1 stays on show, Last Result is the
    expression object, and the session ends with the [TypeError]. *)
Lemma unserializable_result_witness :
  toy_search "&a" scenario_json = Ok (JOpaque (mkExpression "a"))
  /\ run toy_dumps toy_search toy_get_tokens
         [EditChanged "a"; EditChanged "&a"; EditChanged "b"]
         (new_display toy_dumps toy_get_tokens scenario_json "result")
     = (LoopRaised
          (Exn TypeError "Object of type _Expression is not JSON serializable"),
        snd (_on_edit toy_dumps toy_search toy_get_tokens "&a"
               (snd (run toy_dumps toy_search toy_get_tokens [EditChanged "a"]
                         (new_display toy_dumps toy_get_tokens scenario_json
                                      "result")))))
  /\ last_result
       (snd (_on_edit toy_dumps toy_search toy_get_tokens "&a"
               (snd (run toy_dumps toy_search toy_get_tokens [EditChanged "a"]
                         (new_display toy_dumps toy_get_tokens scenario_json
                                      "result")))))
     = JOpaque (mkExpression "a")
  /\ fst (fst (main_parsed toy_dumps toy_search toy_get_tokens toy_decode
                           toy_loads (mkArgs None "result" None)
                           [EditChanged "a"; EditChanged "&a"; KeyPress "f5"]
                           terminal_world))
     = Uncaught
         (Exn TypeError "Object of type _Expression is not JSON serializable").
Proof.
  split; [reflexivity|].
  destruct (unserializable_result_leaves_the_handler
              toy_dumps toy_search toy_get_tokens "&a"
              (snd (run toy_dumps toy_search toy_get_tokens [EditChanged "a"]
                        (new_display toy_dumps toy_get_tokens scenario_json
                                     "result")))
              (JOpaque (mkExpression "a"))
              ltac:(discriminate) eq_refl eq_refl eq_refl)
    as (e & Hclass & _ & Hraise & Hresult & _ & _ & Hrun).
  split; [|split; [exact Hresult|reflexivity]].
  change (run toy_dumps toy_search toy_get_tokens
              [EditChanged "a"; EditChanged "&a"; EditChanged "b"]
              (new_display toy_dumps toy_get_tokens scenario_json "result"))
    with (run toy_dumps toy_search toy_get_tokens
              [EditChanged "&a"; EditChanged "b"]
              (snd (run toy_dumps toy_search toy_get_tokens [EditChanged "a"]
                        (new_display toy_dumps toy_get_tokens scenario_json
                                     "result")))).
  rewrite Hrun. f_equal. f_equal.
  assert (Hsame : Raise e
                  = @Raise unit
                      (Exn TypeError
                           "Object of type _Expression is not JSON serializable"))
    by (rewrite <- Hraise; reflexivity).
  injection Hsame as ->. reflexivity.
Defined.

(** [null_result_sets_status] at [z] typed first: the status line turns
    to success although nothing is shown. *)
Lemma null_result_sets_status_witness :
  toy_search "z" scenario_json = Ok JNull
  /\ footer
       (snd (_on_edit toy_dumps toy_search toy_get_tokens "z"
               (new_display toy_dumps toy_get_tokens scenario_json "result")))
     = "Status: success"
  /\ jmespath_result
       (snd (_on_edit toy_dumps toy_search toy_get_tokens "z"
               (new_display toy_dumps toy_get_tokens scenario_json "result")))
     = MStr "".
Proof.
  split; [reflexivity|].
  pose proof (null_result_sets_status toy_dumps toy_search toy_get_tokens "z"
                (new_display toy_dumps toy_get_tokens scenario_json "result")
                ltac:(discriminate) eq_refl) as H.
  cbv zeta in H. destruct H as (Hfooter & Hpane & _).
  split; assumption.
Defined.

(** C5 as stated fails: with [[1, 2, 3]] piped in two pieces, descriptor
    0 is closed and the terminal opened before the first read. *)
Lemma pipe_is_reopened_before_the_drain :
  syslog (snd (_load_json_from_pipe toy_decode toy_loads
                 (piped_world ["[1, 2"; ", 3]"])))
  = [SysDup 0 3; SysClose 0; SysOpenTty 0;
     SysRead 3 "[1, 2"; SysRead 3 ", 3]"; SysRead 3 ""]
  /\ drain_before_reopen
       (syslog (snd (_load_json_from_pipe toy_decode toy_loads
                       (piped_world ["[1, 2"; ", 3]"]))))
     = false.
Proof. vm_compute. split; reflexivity. Qed.

(** [pipe_is_drained_after_reopen] on that pipe, and on one whose data
    does not parse: the same calls in the same order. *)
Lemma pipe_is_drained_after_reopen_witness :
  (fdtable (piped_world ["[1, 2"; ", 3]"]) !! sys_stdin_fileno
   = Some (Some OPipe)
   /\ ctty (piped_world ["[1, 2"; ", 3]"]) = true)
  /\ fst (_load_json_from_pipe toy_decode toy_loads
            (piped_world ["[1, 2"; ", 3]"]))
     = Ok (JArr [JInt 1; JInt 2; JInt 3])
  /\ length (List.filter is_open_tty
               (syslog (snd (_load_json_from_pipe toy_decode toy_loads
                               (piped_world ["[1, 2"; ", 3]"])))))
     = 1%nat
  /\ length (List.filter is_open_tty
               (syslog (snd (_load_json_from_pipe toy_decode toy_loads
                               (piped_world ["[1, 2"])))))
     = 1%nat.
Proof.
  split; [split; reflexivity|].
  pose proof (pipe_is_drained_after_reopen toy_decode toy_loads
                (piped_world ["[1, 2"; ", 3]"]) eq_refl eq_refl) as Hgood.
  pose proof (pipe_is_drained_after_reopen toy_decode toy_loads
                (piped_world ["[1, 2"]) eq_refl eq_refl) as Hbad.
  cbv zeta in Hgood, Hbad.
  destruct Hgood as (_ & Hresult & _ & Honce & _).
  destruct Hbad as (_ & _ & _ & Honce' & _).
  split; [rewrite Hresult; reflexivity|].
  split; [exact Honce|exact Honce'].
Defined.

(** A file name that cannot be opened: the [FileNotFoundError] leaves
    [main], the interpreter prints it and the exit status is 1. *)
Example missing_file_ends_in_a_traceback :
  main_parsed toy_dumps toy_search toy_get_tokens toy_decode toy_loads
       (mkArgs (Some "missing.json") "result" None) [] terminal_world
  = (Uncaught (Exn FileNotFoundError
                   "[Errno 2] No such file or directory: 'missing.json'"),
     None, terminal_world)
  /\ script toy_dumps toy_search toy_get_tokens toy_decode toy_loads
            toy_parse_args toy_frames ["missing.json"] [] terminal_world
     = (Exit 1,
        set_stderr
          ("Traceback (most recent call last):" ++ nl
           ++ "  File jpterm.py, in main" ++ nl
           ++ "FileNotFoundError: "
           ++ "[Errno 2] No such file or directory: 'missing.json'" ++ nl)
          terminal_world).
Proof. vm_compute. split; reflexivity. Qed.

(** The version option: [parse_args] prints and leaves with status 0. *)
Example version_option :
  script toy_dumps toy_search toy_get_tokens toy_decode toy_loads
         toy_parse_args toy_frames ["--version"] [] terminal_world
  = (Exit 0,
     set_stdout ("jmespath-term 1.1.1, community edition" ++ nl)
                terminal_world).
Proof. vm_compute. reflexivity. Qed.

(** [load_failure_exits_1_normal_exit_0]: a file that holds invalid
    JSON and a file that does not exist both end with status 1 and a
    diagnostic; a session on the sample ended by Ctrl-C ends with
    status 0. *)
Lemma load_failure_exits_1_witness :
  toy_parse_args ["doc.json"] = Parsed (mkArgs (Some "doc.json") "result" None)
  /\ (exists diagnostic,
        diagnostic <> ""
        /\ script toy_dumps toy_search toy_get_tokens toy_decode toy_loads
                  toy_parse_args toy_frames ["doc.json"] []
                  (set_files {[ "doc.json" := "{" ]} terminal_world)
           = (Exit 1,
              set_stderr diagnostic
                (log (SysOpenFile "doc.json" "r")
                     (set_files {[ "doc.json" := "{" ]} terminal_world))))
  /\ fst (script toy_dumps toy_search toy_get_tokens toy_decode toy_loads
                 toy_parse_args toy_frames ["doc.json"] [] terminal_world)
     = Exit 1
  /\ fst (script toy_dumps toy_search toy_get_tokens toy_decode toy_loads
                 toy_parse_args toy_frames []
                 [EditChanged "c"; Interrupt] terminal_world)
     = Exit 0.
Proof.
  split; [reflexivity|]. split; [|split].
  - edestruct (proj1 (load_failure_exits_1_normal_exit_0
                       toy_dumps toy_search toy_get_tokens toy_decode
                       toy_loads toy_parse_args toy_frames ["doc.json"]
                       (mkArgs (Some "doc.json") "result" None) []
                       (set_files {[ "doc.json" := "{" ]} terminal_world)
                       eq_refl))
      as (diagnostic & Hsome & Hscript & _).
    + reflexivity.
    + reflexivity.
    + exists diagnostic. split; [exact Hsome|exact Hscript].
  - destruct (proj1 (proj2 (load_failure_exits_1_normal_exit_0
                       toy_dumps toy_search toy_get_tokens toy_decode
                       toy_loads toy_parse_args toy_frames ["doc.json"]
                       (mkArgs (Some "doc.json") "result" None) []
                       terminal_world eq_refl))
                "doc.json" eq_refl eq_refl)
      as (e & _ & Hscript & _).
    rewrite Hscript. reflexivity.
  - edestruct (proj2 (proj2 (load_failure_exits_1_normal_exit_0
                       toy_dumps toy_search toy_get_tokens toy_decode
                       toy_loads toy_parse_args toy_frames []
                       (mkArgs None "result" None)
                       [EditChanged "c"; Interrupt] terminal_world eq_refl)))
      as [Hscript _].
    + reflexivity.
    + vm_compute. reflexivity.
    + right. eexists. split; reflexivity.
    + vm_compute. reflexivity.
    + rewrite Hscript. reflexivity.
Defined.

(** [main_exit_codes] at a pipe whose data does not parse (exit code 1
    and the message), at a file that holds invalid JSON, and at a
    session on the sample ended by Ctrl-C and one ended by the exit key
    (exit code 0). *)
Lemma main_exit_codes_witness :
  (exists w',
      main_parsed toy_dumps toy_search toy_get_tokens toy_decode toy_loads
           (mkArgs None "result" None) [] (piped_world ["[1, 2"])
      = (Returned 1, None, w')
      /\ stderr w'
         = "Unable to load the input JSON: "
           ++ "Expecting value: line 1 column 1 (char 0)" ++ nl ++ nl)
  /\ fst (main_parsed toy_dumps toy_search toy_get_tokens toy_decode toy_loads
               (mkArgs (Some "doc.json") "result" None) []
               (set_files {[ "doc.json" := "{" ]} terminal_world))
     = (Returned 1, None)
  /\ fst (fst (main_parsed toy_dumps toy_search toy_get_tokens toy_decode toy_loads
                    (mkArgs None "result" None)
                    [EditChanged "c"; Interrupt] terminal_world))
     = Returned 0
  /\ fst (fst (main_parsed toy_dumps toy_search toy_get_tokens toy_decode toy_loads
                    (mkArgs None "quiet" None)
                    [EditChanged "c"; KeyPress "f5"] terminal_world))
     = Returned 0.
Proof.
  split; [|split; [|split]].
  - eexists. split.
    + eapply (proj1 (main_exit_codes toy_dumps toy_search toy_get_tokens
                       toy_decode toy_loads (mkArgs None "result" None) []
                       (piped_world ["[1, 2"]))).
      * vm_compute. reflexivity.
      * reflexivity.
    + reflexivity.
  - erewrite (proj1 (main_exit_codes toy_dumps toy_search toy_get_tokens
                       toy_decode toy_loads
                       (mkArgs (Some "doc.json") "result" None) []
                       (set_files {[ "doc.json" := "{" ]} terminal_world)));
      [reflexivity|vm_compute; reflexivity|reflexivity].
  - erewrite (proj2 (proj2 (proj2
               (main_exit_codes toy_dumps toy_search toy_get_tokens
                  toy_decode toy_loads (mkArgs None "result" None)
                  [EditChanged "c"; Interrupt] terminal_world))));
      [reflexivity|reflexivity|vm_compute; reflexivity| |vm_compute; reflexivity].
    right. eexists. split; reflexivity.
  - erewrite (proj2 (proj2 (proj2
               (main_exit_codes toy_dumps toy_search toy_get_tokens
                  toy_decode toy_loads (mkArgs None "quiet" None)
                  [EditChanged "c"; KeyPress "f5"] terminal_world))));
      [reflexivity|reflexivity|vm_compute; reflexivity| |vm_compute; reflexivity].
    left. reflexivity.
Defined.

(** [display_output_follows_mode] after [a] was typed: "result" mode
    with a file name leaves 1 in the file and nothing on standard
    output. *)
Lemma display_output_follows_mode_witness :
  ("out.txt" ∉ unwritable terminal_world)
  /\ files (snd (display_output toy_dumps (Some "out.txt")
                   (snd (run toy_dumps toy_search toy_get_tokens
                             [EditChanged "a"]
                             (new_display toy_dumps toy_get_tokens
                                          scenario_json "result")))
                   terminal_world))
     = {[ "out.txt" := "1" ]}
  /\ stdout (snd (display_output toy_dumps (Some "out.txt")
                    (snd (run toy_dumps toy_search toy_get_tokens
                              [EditChanged "a"]
                              (new_display toy_dumps toy_get_tokens
                                           scenario_json "result")))
                    terminal_world))
     = "".
Proof.
  assert (Hw : "out.txt" ∉ unwritable terminal_world)
    by apply not_elem_of_empty.
  split; [exact Hw|].
  pose proof (display_output_follows_mode toy_dumps toy_search toy_get_tokens
                (Some "out.txt")
                (snd (run toy_dumps toy_search toy_get_tokens
                          [EditChanged "a"]
                          (new_display toy_dumps toy_get_tokens
                                       scenario_json "result")))
                terminal_world) as (Hout & _ & _ & _ & Hfile & _).
  rewrite Hout.
  change (finalize_text toy_dumps _ _ _) with (@Ok (option string) (Some "1")).
  destruct (Hfile "out.txt" "1" Hw) as (_ & Hfiles & Hstdout).
  rewrite Hfiles, Hstdout. split; reflexivity.
Defined.

(** ** More of the program on concrete inputs *)

Lemma toy_search_raises_errors_only : search_raises_errors_only toy_search.
Proof.
  intros text doc e. unfold toy_search.
  destruct (ends_with_dot text).
  - intros [= <-]. reflexivity.
  - destruct text as [|[[] [] [] [] [] [] [] []] rest]; try discriminate;
      destruct doc; discriminate.
Qed.

(** [mode_key_cycles_through_three] from "result" mode. *)
Lemma mode_key_cycles_witness :
  valid_mode (new_display toy_dumps toy_get_tokens scenario_json "result")
  /\ output_mode
       (snd (unhandled_input toy_dumps toy_search toy_get_tokens "ctrl p"
               (new_display toy_dumps toy_get_tokens scenario_json "result")))
     = "expression"
  /\ output_mode
       (snd (unhandled_input toy_dumps toy_search toy_get_tokens "ctrl p"
          (snd (unhandled_input toy_dumps toy_search toy_get_tokens "ctrl p"
             (snd (unhandled_input toy_dumps toy_search toy_get_tokens "ctrl p"
                (new_display toy_dumps toy_get_tokens scenario_json
                             "result")))))))
     = "result".
Proof.
  assert (Hmode : valid_mode
                    (new_display toy_dumps toy_get_tokens scenario_json
                                 "result"))
    by (left; reflexivity).
  split; [exact Hmode|]. split; [reflexivity|].
  pose proof (mode_key_cycles_through_three toy_dumps toy_search
                toy_get_tokens _ Hmode) as H.
  cbv zeta in H. destruct H as (_ & _ & _ & _ & Hback & _).
  exact Hback.
Defined.

(** [mode_key_unknown_mode_raises] for a display made with a mode that
    does not exist. *)
Lemma mode_key_unknown_mode_witness :
  exists e,
    exn_class e = ValueError
    /\ unhandled_input toy_dumps toy_search toy_get_tokens "ctrl p"
         (new_display toy_dumps toy_get_tokens scenario_json "verbose")
       = (Raise e,
          new_display toy_dumps toy_get_tokens scenario_json "verbose").
Proof.
  destruct (mode_key_unknown_mode_raises toy_dumps toy_search toy_get_tokens
              (new_display toy_dumps toy_get_tokens scenario_json "verbose"))
    as (e & Hclass & Hkey & _).
  - intros [H|[H|[H|[]]]]; discriminate.
  - exists e. split; assumption.
Defined.

(** [last_expression_is_the_field] after [a], then [a.], then the clear
    key. *)
Lemma last_expression_is_the_field_witness :
  (fst (run toy_dumps toy_search toy_get_tokens
            [EditChanged "a"; EditChanged "a."; KeyPress "ctrl ]"]
            (new_display toy_dumps toy_get_tokens scenario_json "result"))
   = LoopWaiting
   \/ fst (run toy_dumps toy_search toy_get_tokens
              [EditChanged "a"; EditChanged "a."; KeyPress "ctrl ]"]
              (new_display toy_dumps toy_get_tokens scenario_json "result"))
      = LoopExited)
  /\ field_is_recorded
       (snd (run toy_dumps toy_search toy_get_tokens
                 [EditChanged "a"; EditChanged "a."; KeyPress "ctrl ]"]
                 (new_display toy_dumps toy_get_tokens scenario_json
                              "result"))).
Proof.
  assert (Hended :
            fst (run toy_dumps toy_search toy_get_tokens
                     [EditChanged "a"; EditChanged "a."; KeyPress "ctrl ]"]
                     (new_display toy_dumps toy_get_tokens scenario_json
                                  "result"))
            = LoopWaiting
            \/ fst (run toy_dumps toy_search toy_get_tokens
                       [EditChanged "a"; EditChanged "a."; KeyPress "ctrl ]"]
                       (new_display toy_dumps toy_get_tokens scenario_json
                                    "result"))
               = LoopExited)
    by (left; reflexivity).
  split; [exact Hended|].
  exact (last_expression_is_the_field toy_dumps toy_search toy_get_tokens
           _ _ _ Hended).
Defined.

(** [edits_that_show_nothing_keep_the_display]: with 1 on show, typing
    [z] (no such field) and then [a.] (incomplete) keeps 1 on show. *)
Lemma edits_that_show_nothing_witness :
  Forall (shows_nothing toy_search scenario_json) ["z"; "a."]
  /\ last_result
       (snd (run toy_dumps toy_search toy_get_tokens
                 (map EditChanged ["z"; "a."])
                 (snd (run toy_dumps toy_search toy_get_tokens
                           [EditChanged "a"]
                           (new_display toy_dumps toy_get_tokens
                                        scenario_json "result")))))
     = JInt 1.
Proof.
  assert (Hall : Forall (shows_nothing toy_search scenario_json) ["z"; "a."]).
  { apply Forall_cons. split.
    - split; [discriminate|left; reflexivity].
    - apply Forall_cons. split; [|apply Forall_nil; exact I].
      split; [discriminate|right; eexists; split; reflexivity]. }
  split; [exact Hall|].
  destruct (edits_that_show_nothing_keep_the_display
              toy_dumps toy_search toy_get_tokens ["z"; "a."]
              (snd (run toy_dumps toy_search toy_get_tokens
                        [EditChanged "a"]
                        (new_display toy_dumps toy_get_tokens
                                     scenario_json "result")))
              Hall) as (_ & _ & Hresult).
  rewrite Hresult. reflexivity.
Defined.

(** [untouched_session_writes_nothing] in "expression" mode with an
    output file: the mode key and a key that means nothing, then the
    exit key; the file is not even created. *)
Lemma untouched_session_witness :
  (In "expression" OUTPUT_MODES
   /\ Forall (fun key => key <> "ctrl ]") ["ctrl p"; "x"])
  /\ exists display,
       main_parsed toy_dumps toy_search toy_get_tokens toy_decode toy_loads
            (mkArgs None "expression" (Some "out.txt"))
            (map KeyPress ["ctrl p"; "x"] ++ [KeyPress "f5"]) terminal_world
       = (Returned 0, Some display, terminal_world).
Proof.
  assert (Hmode : In "expression" OUTPUT_MODES) by (right; left; reflexivity).
  assert (Hkeys : Forall (fun key => key <> "ctrl ]") ["ctrl p"; "x"])
    by (repeat constructor; discriminate).
  split; [split; assumption|].
  destruct (untouched_session_writes_nothing
              toy_dumps toy_search toy_get_tokens toy_decode toy_loads
              (mkArgs None "expression" (Some "out.txt")) ["ctrl p"; "x"]
              terminal_world terminal_world SAMPLE_JSON Hmode Hkeys eq_refl)
    as (display & Hmain & _).
  exists display. exact Hmain.
Defined.

(** [pipe_load_keeps_the_duplicate_open] on a pipe that delivers [1]:
    descriptor 3 is left open on the pipe. *)
Lemma pipe_load_keeps_the_duplicate_witness :
  fdtable (snd (_load_json_from_pipe toy_decode toy_loads (piped_world ["1"])))
  !! 3%nat
  = Some (Some OPipe).
Proof.
  pose proof (pipe_load_keeps_the_duplicate_open toy_decode toy_loads
                (piped_world ["1"]) eq_refl eq_refl) as H.
  cbv zeta in H. destruct H as (_ & _ & Hopen & _). exact Hopen.
Defined.

(** [pipe_chunking_does_not_matter]: [[1, 2, 3]] in two pieces and in
    one. *)
Lemma pipe_chunking_witness :
  join ["[1, 2"; ", 3]"] = join ["[1, 2, 3]"]
  /\ fst (_load_json_from_pipe toy_decode toy_loads
            (piped_world ["[1, 2"; ", 3]"]))
     = fst (_load_json_from_pipe toy_decode toy_loads
              (piped_world ["[1, 2, 3]"])).
Proof.
  split; [reflexivity|].
  apply (pipe_chunking_does_not_matter toy_decode toy_loads
           (piped_world ["[1, 2"; ", 3]"]) (piped_world ["[1, 2, 3]"]));
    try reflexivity; repeat constructor; discriminate.
Defined.

(** [pipe_load_without_terminal] for a process with no controlling
    terminal, such as one started by cron. *)
Lemma pipe_load_without_terminal_witness :
  exists e,
    isinstance e OSError = true
    /\ fst (main_parsed toy_dumps toy_search toy_get_tokens toy_decode toy_loads
                 (mkArgs None "result" None) [KeyPress "f5"]
                 (mkWorld [Some OPipe; Some OTty; Some OTty] ["1"] [] false
                          ∅ ∅ "" "" []))
       = (Uncaught e, None).
Proof.
  destruct (pipe_load_without_terminal toy_dumps toy_search toy_get_tokens
              toy_decode toy_loads
              (mkWorld [Some OPipe; Some OTty; Some OTty] ["1"] [] false
                       ∅ ∅ "" "" [])
              eq_refl eq_refl)
    as (e & Hos & _ & _ & _ & _ & _ & Hmain).
  exists e. split; [exact Hos|]. apply Hmain. reflexivity.
Defined.

(** [unwritable_output_file_is_fatal]: [a] is typed against the sample,
    the exit key pressed, and [out.txt] cannot be written. *)
Lemma unwritable_output_file_witness :
  exists e,
    isinstance e OSError = true
    /\ fst (fst (main_parsed toy_dumps toy_search toy_get_tokens toy_decode toy_loads
                      (mkArgs None "result" (Some "out.txt"))
                      [EditChanged "a"; KeyPress "f5"]
                      (mkWorld [Some OTty; Some OTty; Some OTty] [] [] true
                               ∅ {[ "out.txt" ]} "" "" [])))
       = Uncaught e.
Proof.
  edestruct (unwritable_output_file_is_fatal
               toy_dumps toy_search toy_get_tokens toy_decode toy_loads
               (mkArgs None "result" (Some "out.txt"))
               [EditChanged "a"; KeyPress "f5"]
               (mkWorld [Some OTty; Some OTty; Some OTty] [] [] true
                        ∅ {[ "out.txt" ]} "" "" [])
               (mkWorld [Some OTty; Some OTty; Some OTty] [] [] true
                        ∅ {[ "out.txt" ]} "" "" [])
               SAMPLE_JSON)
    as (e & Hos & Hmain).
  - reflexivity.
  - vm_compute. reflexivity.
  - vm_compute. reflexivity.
  - reflexivity.
  - simpl. apply elem_of_singleton. reflexivity.
  - exists e. split; [exact Hos|]. rewrite Hmain. reflexivity.
Defined.

(** [result_output_is_a_search_result]: [b] is typed against the
    sample, then [b.]; the exit key writes 2, the value of [b]. *)
Lemma result_output_witness :
  fst (fst (main_parsed toy_dumps toy_search toy_get_tokens toy_decode toy_loads
                 (mkArgs None "result" None)
                 [EditChanged "b"; EditChanged "b."; KeyPress "f5"]
                 terminal_world))
  = Returned 0
  /\ stdout (snd (main_parsed toy_dumps toy_search toy_get_tokens toy_decode toy_loads
                       (mkArgs None "result" None)
                       [EditChanged "b"; EditChanged "b."; KeyPress "f5"]
                       terminal_world))
     = "2".
Proof.
  split; [reflexivity|].
  pose proof (result_output_is_a_search_result
                toy_dumps toy_search toy_get_tokens toy_decode toy_loads
                (mkArgs None "result" None)
                [EditChanged "b"; EditChanged "b."; KeyPress "f5"]
                terminal_world terminal_world SAMPLE_JSON
                eq_refl eq_refl eq_refl eq_refl) as H.
  cbv zeta in H.
  destruct H as [[Hnull _]|(text & j & _ & _ & _ & Hj & Hout & _)].
  - vm_compute in Hnull. discriminate.
  - rewrite Hout. vm_compute in Hj. injection Hj as <-. reflexivity.
Defined.

(** [expression_output_is_the_field]: [b], then [b.], the mode key and
    the exit key; what is written is [b.], the text in the field. *)
Lemma expression_output_witness :
  fst (fst (main_parsed toy_dumps toy_search toy_get_tokens toy_decode toy_loads
                 (mkArgs None "result" None)
                 [EditChanged "b"; EditChanged "b."; KeyPress "ctrl p";
                  KeyPress "f5"]
                 terminal_world))
  = Returned 0
  /\ stdout (snd (main_parsed toy_dumps toy_search toy_get_tokens toy_decode toy_loads
                       (mkArgs None "result" None)
                       [EditChanged "b"; EditChanged "b."; KeyPress "ctrl p";
                        KeyPress "f5"]
                       terminal_world))
     = "b.".
Proof.
  split; [reflexivity|].
  pose proof (expression_output_is_the_field
                toy_dumps toy_search toy_get_tokens toy_decode toy_loads
                toy_search_raises_errors_only
                (mkArgs None "result" None)
                [EditChanged "b"; EditChanged "b."; KeyPress "ctrl p";
                 KeyPress "f5"]
                terminal_world terminal_world SAMPLE_JSON
                eq_refl eq_refl eq_refl eq_refl) as H.
  cbv zeta in H. destruct H as [[Hnone _]|(_ & Hout & _)].
  - vm_compute in Hnone. discriminate.
  - rewrite Hout. reflexivity.
Defined.

(** [run_survives_search_errors]: an incomplete expression, an
    expression with a value, one without, then the mode key: the session
    is still waiting for input. *)
Lemma run_survives_search_errors_witness :
  valid_mode (new_display toy_dumps toy_get_tokens scenario_json "result")
  /\ Forall (harmless toy_search scenario_json)
            [EditChanged "a."; EditChanged "a"; EditChanged "z";
             KeyPress "ctrl p"]
  /\ fst (run toy_dumps toy_search toy_get_tokens
              [EditChanged "a."; EditChanged "a"; EditChanged "z";
               KeyPress "ctrl p"]
              (new_display toy_dumps toy_get_tokens scenario_json "result"))
     = LoopWaiting.
Proof.
  assert (Hmode : valid_mode
                    (new_display toy_dumps toy_get_tokens scenario_json
                                 "result"))
    by (left; reflexivity).
  assert (Hall : Forall (harmless toy_search scenario_json)
                        [EditChanged "a."; EditChanged "a"; EditChanged "z";
                         KeyPress "ctrl p"]).
  { apply Forall_cons. split; [reflexivity|].
    apply Forall_cons. split; [discriminate|].
    apply Forall_cons. split; [discriminate|].
    apply Forall_cons. split; [exact I|apply Forall_nil; exact I]. }
  split; [exact Hmode|]. split; [exact Hall|].
  destruct (run_survives_search_errors toy_dumps toy_search toy_get_tokens
              [EditChanged "a."; EditChanged "a"; EditChanged "z";
               KeyPress "ctrl p"]
              (new_display toy_dumps toy_get_tokens scenario_json "result")
              Hmode Hall) as [Hexit|Hwait].
  - vm_compute in Hexit. discriminate.
  - exact Hwait.
Defined.
